(** * PlannerDay agent: the two resolver tools of [plannerday-agent.py]

    A shallow embedding of [get_user_location_by_ip] and [get_weather]:
    Python values as an inductive type, dicts as [gmap], floats as IEEE
    binary64 values ([spec_float] at precision 53), exceptions as values of
    an error type, and the observable effects (HTTP requests, prints, log
    and tracing calls) as a trace carried next to the result. *)

From Stdlib Require Import ZArith Ascii String Floats.SpecFloat.
From Stdlib Require Import DecimalString DecimalN DecimalPos.
From stdpp Require Import base gmap strings list.

Local Set Warnings "-register-all".
Local Open Scope Z_scope.

(** ** Python values *)

(** What [r.json()] can hand back, and what the tools put into their result
    dicts ([dict[str, Any]]). *)
Inductive pyval :=
| PNone
| PBool (b : bool)
| PInt (n : Z)
| PFloat (f : spec_float)
| PStr (s : string)
| PList (l : list pyval)
| PDict (d : gmap string pyval).

(** ** Exceptions *)

Inductive exn_class :=
| RequestError        (* httpx transport failure: connect, timeout, ... *)
| HTTPStatusError     (* raised by [raise_for_status] *)
| JSONDecodeError     (* raised by [r.json()] *)
| AttributeError
| KeyError
| TypeError
| ValueError
| OverflowError
| UnicodeEncodeError  (* raised by [print] on a stdout that cannot encode *)
| OSError             (* raised by [print] on a stdout that cannot be written *)
| CancelledError      (* derives from BaseException only *)
| KeyboardInterrupt.  (* derives from BaseException only *)

Record exn := Exn { exn_cls : exn_class; exn_arg : string }.

(** [isinstance(e, Exception)]: what an [except Exception] clause catches. *)
Definition isinstance_Exception (e : exn) : bool :=
  match exn_cls e with
  | CancelledError | KeyboardInterrupt => false
  | _ => true
  end.

Inductive result (A : Type) :=
| Ok (a : A)
| Raise (e : exn).
Arguments Ok {A} a.
Arguments Raise {A} e.

(** ** The HTTP transport *)

(** A query parameter is a string; the [location] parameter is the f-string
    [f'{lat},{lng}'], kept as the pair of floats it renders. *)
Inductive param :=
| PLit (s : string)
| PCoords (lat lng : spec_float).

Record request := Request {
  req_url : string;
  req_params : list (string * param)
}.

(** The response object: its status code and what [r.json()] does. *)
Record response := Response {
  status_code : Z;
  json : result pyval
}.

(** ** Effects: a trace of observable events next to the result *)

Inductive event :=
| EvGet (req : request)                       (* [client.get(url, params=...)] *)
| EvPrint (v : pyval)                         (* [print(data)] *)
| EvLogWarning (prefix : string) (e : exn)    (* [logfire.warning(f"...{str(e)}")] *)
| EvSpan (name : string) (params : list (string * param))
| EvSpanAttr (key : string) (v : pyval).

Definition M (A : Type) : Type := (list event * result A)%type.

Definition ret {A} (a : A) : M A := ([], Ok a).
Definition raise {A} (e : exn) : M A := ([], Raise e).
Definition emit (ev : event) : M unit := ([ev], Ok tt).
Definition lift {A} (r : result A) : M A := ([], r).

Definition bind {A B} (m : M A) (k : A -> M B) : M B :=
  match m with
  | (t, Ok a) => let (t', r) := k a in (t ++ t', r)
  | (t, Raise e) => (t, Raise e)
  end.

Declare Scope eff_scope.
Delimit Scope eff_scope with eff.
Notation "x <- c1 ;; c2" := (bind c1 (fun x => c2))
  (at level 100, c1 at next level, right associativity) : eff_scope.
Notation "c1 ;; c2" := (bind c1 (fun _ => c2))
  (at level 100, right associativity) : eff_scope.
Local Open Scope eff_scope.

(** [try: body  except Exception as e: handler(e)] *)
Definition try_except_Exception {A} (body : M A) (handler : exn -> M A) : M A :=
  match body with
  | (t, Raise e) =>
      if isinstance_Exception e
      then let (t', r) := handler e in (t ++ t', r)
      else (t, Raise e)
  | (t, Ok a) => (t, Ok a)
  end.

(** The number of outbound network calls in a trace. *)
Definition is_get (ev : event) : bool :=
  match ev with EvGet _ => true | _ => false end.

Definition network_calls (t : list event) : nat :=
  length (List.filter is_get t).

(** ** The standard output *)

(** What [print(v)] does on the process's stdout: it returns, or it raises
    because the text cannot be encoded for the stream or the stream cannot
    be written. Both errors are instances of [Exception]. *)
Inductive stdout_error :=
| CannotEncode
| CannotWrite.

Definition stdout_exn (err : stdout_error) : exn :=
  match err with
  | CannotEncode => Exn UnicodeEncodeError "codec can't encode character"
  | CannotWrite => Exn OSError "write"
  end.

Definition Stdout : Type := pyval -> option stdout_error.

(** [print(v)] *)
Definition py_print (stdout : Stdout) (v : pyval) : M unit :=
  emit (EvPrint v) ;;
  match stdout v with
  | None => ret tt
  | Some err => raise (stdout_exn err)
  end.

(** ** The dependency bundle *)

(** [client] gives the outcome of a GET: the call raises or returns a
    response. *)
Record Deps := {
  client : request -> result response;
  weather_api_key : option string
}.

Definition client_get (deps : Deps) (url : string)
    (params : list (string * param)) : M response :=
  let req := Request url params in
  emit (EvGet req) ;; lift (client deps req).

(** httpx: [is_success] is a 2xx status, and [raise_for_status] raises
    [HTTPStatusError] for every other one. *)
Definition is_success (status : Z) : bool :=
  (200 <=? status) && (status <=? 299).

Definition raise_for_status (r : response) : M unit :=
  if is_success (status_code r) then ret tt
  else raise (Exn HTTPStatusError "").

(** ** Python operations on values *)

(** [data.get(key, default)]: only a dict has the method. *)
Definition py_get (data : pyval) (key : string) (default : pyval) : M pyval :=
  match data with
  | PDict d => ret (match d !! key with Some v => v | None => default end)
  | _ => raise (Exn AttributeError "get")
  end.

(** [v[key]] with a string key. *)
Definition subscript (v : pyval) (key : string) : M pyval :=
  match v with
  | PDict d =>
      match d !! key with
      | Some x => ret x
      | None => raise (Exn KeyError key)
      end
  | _ => raise (Exn TypeError "subscript")
  end.

(** ** Floats *)

Definition prec : Z := 53.
Definition emax : Z := 1024.

(** [float(n)] for an int: correctly rounded, [OverflowError] when the
    result does not fit. *)
Definition float_of_int (n : Z) : spec_float := binary_normalize prec emax n 0 false.

(** The float a decimal literal [digits / 10^scale] denotes, for [digits]
    and [10^scale] below 2^53: the correctly rounded quotient. *)
Definition float_lit (digits : Z) (scale : Z) : spec_float :=
  SFdiv prec emax (float_of_int digits) (float_of_int (10 ^ scale)).

(** The integer nearest to [m * 2^e], ties going to the even one. *)
Definition round_half_even (m : positive) (e : Z) : Z :=
  if 0 <=? e then Z.pos m * 2 ^ e
  else
    let d := 2 ^ (- e) in
    let q := Z.pos m / d in
    let r := Z.pos m mod d in
    match 2 * r ?= d with
    | Lt => q
    | Gt => q + 1
    | Eq => if Z.even q then q else q + 1
    end.

Definition digits (n : Z) : string :=
  NilZero.string_of_uint (N.to_uint (Z.to_N n)).

Definition sign_str (s : bool) : string := if s then "-" else "".

(** [format(f, '0.0f')] for a float. *)
Definition format_float_0f (f : spec_float) : string :=
  match f with
  | S754_nan => "nan"
  | S754_infinity s => sign_str s +:+ "inf"
  | S754_zero s => sign_str s +:+ "0"
  | S754_finite s m e => sign_str s +:+ digits (round_half_even m e)
  end.

(** The float the [f] presentation type formats: ints and bools are
    converted first, everything else is rejected. *)
Definition float_for_format (v : pyval) : M spec_float :=
  match v with
  | PFloat f => ret f
  | PInt n =>
      match float_of_int n with
      | S754_infinity _ => raise (Exn OverflowError "int too large to convert to float")
      | f => ret f
      end
  | PBool b => ret (float_of_int (Z.b2z b))
  | PStr _ => raise (Exn ValueError "Unknown format code 'f' for object of type 'str'")
  | _ => raise (Exn TypeError "unsupported format string")
  end.

(** [f'{v:0.0f}'] *)
Definition format_0f (v : pyval) : M string :=
  f <- float_for_format v ;; ret (format_float_0f f).

(** ** [get_user_location_by_ip] *)

Definition location_url : string := "https://ipapi.co/json/".

Definition location_request : request := Request location_url [].

Definition location_warning : string := "Failed to get location by IP: ".

(** The dict of the [except] branch. *)
Definition fallback_location : gmap string pyval :=
  {[ "city" := PStr "Київ";
     "region" := PStr "Київська область";
     "country" := PStr "Україна";
     "lat" := PFloat (float_lit 504501 4);
     "lng" := PFloat (float_lit 305234 4) ]}.

Definition get_user_location_by_ip (stdout : Stdout) (deps : Deps)
    : M (gmap string pyval) :=
  try_except_Exception
    (r <- client_get deps location_url [] ;;
     raise_for_status r ;;
     data <- lift (json r) ;;
     py_print stdout data ;;
     city <- py_get data "city" (PStr "Unknown") ;;
     region <- py_get data "region" (PStr "Unknown") ;;
     country <- py_get data "country_name" (PStr "Unknown") ;;
     lat <- py_get data "latitude" (PFloat (S754_zero false)) ;;
     lng <- py_get data "longitude" (PFloat (S754_zero false)) ;;
     ret {[ "city" := city;
            "region" := region;
            "country" := country;
            "lat" := lat;
            "lng" := lng ]})
    (fun e =>
       emit (EvLogWarning location_warning e) ;;
       ret fallback_location).

(** ** [get_weather] *)

Definition weather_url : string := "https://api.tomorrow.io/v4/weather/realtime".

Definition weather_params (key : string) (lat lng : spec_float)
    : list (string * param) :=
  [("apikey", PLit key); ("location", PCoords lat lng); ("units", PLit "metric")].

Definition weather_request (key : string) (lat lng : spec_float) : request :=
  Request weather_url (weather_params key lat lng).

(** The dict literal [code_lookup], in source order. *)
Definition code_table : list (Z * string) :=
  [ (1000, "Clear, Sunny");
    (1100, "Mostly Clear");
    (1101, "Partly Cloudy");
    (1102, "Mostly Cloudy");
    (1001, "Cloudy");
    (2000, "Fog");
    (2100, "Light Fog");
    (4000, "Drizzle");
    (4001, "Rain");
    (4200, "Light Rain");
    (4201, "Heavy Rain");
    (5000, "Snow");
    (5001, "Flurries");
    (5100, "Light Snow");
    (5101, "Heavy Snow");
    (6000, "Freezing Drizzle");
    (6001, "Freezing Rain");
    (6200, "Light Freezing Rain");
    (6201, "Heavy Freezing Rain");
    (7000, "Ice Pellets");
    (7101, "Heavy Ice Pellets");
    (7102, "Light Ice Pellets");
    (8000, "Thunderstorm") ].

Definition code_lookup : gmap Z string := list_to_map code_table.

(** [code_lookup.get(code, 'Unknown')] at an integer code. *)
Definition translate (code : Z) : string :=
  match code_lookup !! code with
  | Some label => label
  | None => "Unknown"
  end.

(** The integer a float is equal to, when there is one: a float key finds
    the entry of the int it equals. *)
Definition float_as_int (f : spec_float) : option Z :=
  match f with
  | S754_zero _ => Some 0
  | S754_finite s m e =>
      if 0 <=? e then Some (cond_Zopp s (Z.pos m * 2 ^ e))
      else if Z.pos m mod 2 ^ (- e) =? 0
           then Some (cond_Zopp s (Z.pos m / 2 ^ (- e)))
           else None
  | _ => None
  end.

(** [code_lookup.get(v, 'Unknown')] at any value: lists and dicts are
    unhashable, a bool is the int 0 or 1, a str or None matches no key. *)
Definition code_lookup_get (v : pyval) : M string :=
  match v with
  | PInt n => ret (translate n)
  | PBool b => ret (translate (Z.b2z b))
  | PFloat f =>
      ret (match float_as_int f with
           | Some n => translate n
           | None => "Unknown"
           end)
  | PStr _ | PNone => ret "Unknown"
  | PList _ | PDict _ => raise (Exn TypeError "unhashable type")
  end.

Definition stub_weather : gmap string pyval :=
  {[ "temperature" := PStr "21 °C"; "description" := PStr "Sunny" ]}.

Definition get_weather (deps : Deps) (lat lng : spec_float)
    : M (gmap string pyval) :=
  match weather_api_key deps with
  | None => ret stub_weather
  | Some key =>
      let params := weather_params key lat lng in
      data <- (emit (EvSpan "calling weather API" params) ;;
               r <- client_get deps weather_url params ;;
               raise_for_status r ;;
               data <- lift (json r) ;;
               emit (EvSpanAttr "response" data) ;;
               ret data) ;;
      data' <- subscript data "data" ;;
      values <- subscript data' "values" ;;
      t <- subscript values "temperatureApparent" ;;
      temperature <- format_0f t ;;
      code <- subscript values "weatherCode" ;;
      description <- code_lookup_get code ;;
      ret {[ "temperature" := PStr (temperature +:+ "°C");
             "description" := PStr description ]}
  end.

(** The part of [get_weather] after the response is parsed, on its own. *)
Definition read_weather (data : pyval) : M (gmap string pyval) :=
  data' <- subscript data "data" ;;
  values <- subscript data' "values" ;;
  t <- subscript values "temperatureApparent" ;;
  temperature <- format_0f t ;;
  code <- subscript values "weatherCode" ;;
  description <- code_lookup_get code ;;
  ret {[ "temperature" := PStr (temperature +:+ "°C");
         "description" := PStr description ]}.

(** ** Predicates the properties are stated with *)

(** The ways the location lookup fails, with the exception the [try] body
    ends in: the GET raises, the status is not a success, [r.json()]
    raises, printing the parsed body raises, or the printed body is not an
    object (so it has no [get]). *)
Inductive lookup_failure (stdout : Stdout) (deps : Deps) : exn -> Prop :=
| get_raises e :
    client deps location_request = Raise e ->
    lookup_failure stdout deps e
| status_not_success r :
    client deps location_request = Ok r ->
    is_success (status_code r) = false ->
    lookup_failure stdout deps (Exn HTTPStatusError "")
| json_raises r e :
    client deps location_request = Ok r ->
    is_success (status_code r) = true ->
    json r = Raise e ->
    lookup_failure stdout deps e
| print_raises r body err :
    client deps location_request = Ok r ->
    is_success (status_code r) = true ->
    json r = Ok body ->
    stdout body = Some err ->
    lookup_failure stdout deps (stdout_exn err)
| body_not_object r body :
    client deps location_request = Ok r ->
    is_success (status_code r) = true ->
    json r = Ok body ->
    stdout body = None ->
    (forall d, body <> PDict d) ->
    lookup_failure stdout deps (Exn AttributeError "get").

(** The location provider answered with a success status and the JSON
    object [d]. *)
Definition location_response (deps : Deps) (d : gmap string pyval) : Prop :=
  exists r, client deps location_request = Ok r /\
            is_success (status_code r) = true /\
            json r = Ok (PDict d).

(** Nothing the transport raises escapes [except Exception]. *)
Definition only_Exceptions (deps : Deps) : bool :=
  match client deps location_request with
  | Raise e => isinstance_Exception e
  | Ok r =>
      if is_success (status_code r)
      then match json r with
           | Raise e => isinstance_Exception e
           | Ok _ => true
           end
      else true
  end.

Definition non_null (v : pyval) : bool :=
  match v with PNone => false | _ => true end.

(** A number within [[lo, hi]]. *)
Definition in_range (lo hi : Z) (v : pyval) : bool :=
  match v with
  | PFloat f => SFleb (float_of_int lo) f && SFleb f (float_of_int hi)
  | PInt n => (lo <=? n) && (n <=? hi)
  | _ => false
  end.

Definition field_is (P : pyval -> bool) (d : gmap string pyval) (k : string) : bool :=
  match d !! k with
  | Some v => P v
  | None => false
  end.

(** The Location invariant: every field present and not null, the latitude
    within [[-90, 90]] and the longitude within [[-180, 180]]. *)
Definition location_invariant (loc : gmap string pyval) : bool :=
  field_is non_null loc "city" &&
  field_is non_null loc "region" &&
  field_is non_null loc "country" &&
  field_is (in_range (-90) 90) loc "lat" &&
  field_is (in_range (-180) 180) loc "lng".

Definition absent_or (P : pyval -> bool) (d : gmap string pyval) (k : string) : bool :=
  match d !! k with
  | Some v => P v
  | None => true
  end.

(** The fields the provider does supply are not null and within range. *)
Definition supplied_fields_ok (d : gmap string pyval) : bool :=
  absent_or non_null d "city" &&
  absent_or non_null d "region" &&
  absent_or non_null d "country_name" &&
  absent_or (in_range (-90) 90) d "latitude" &&
  absent_or (in_range (-180) 180) d "longitude".

Definition location_keys : gset string :=
  {[ "city"; "region"; "country"; "lat"; "lng" ]}.

(** Live mode: a credential is configured and the weather provider answered
    the request with a success status and the parsed body [body]. *)
Definition live_body (deps : Deps) (lat lng : spec_float) (body : pyval) : Prop :=
  exists key r,
    weather_api_key deps = Some key /\
    client deps (weather_request key lat lng) = Ok r /\
    is_success (status_code r) = true /\
    json r = Ok body.

(** The entry [k] of a JSON object. *)
Definition member (v : pyval) (k : string) : option pyval :=
  match v with
  | PDict d => d !! k
  | _ => None
  end.

(** [body.data.values] *)
Definition body_values (body : pyval) : option pyval :=
  match member body "data" with
  | Some data' => member data' "values"
  | None => None
  end.

(** The two readings of a body of the shape
    [{data: {values: {temperatureApparent, weatherCode}}}]. *)
Definition weather_shape (body : pyval) : option (pyval * pyval) :=
  match body_values body with
  | Some values =>
      match member values "temperatureApparent", member values "weatherCode" with
      | Some t, Some c => Some (t, c)
      | _, _ => None
      end
  | None => None
  end.

(** [n] is an integer nearest to the magnitude of [f]:
    [|n - m * 2^e| <= 1/2], written over the integers. *)
Definition nearest_integer (f : spec_float) (n : Z) : Prop :=
  match f with
  | S754_zero _ => n = 0
  | S754_finite _ m e =>
      let k := Z.max 0 (- e) in
      2 * Z.abs (n * 2 ^ k - Z.pos m * 2 ^ (e + k)) <= 2 ^ k
  | _ => False
  end.

Definition is_digit (a : ascii) : bool :=
  let n := nat_of_ascii a in (48 <=? n)%nat && (n <=? 57)%nat.

Fixpoint all_digits (s : string) : bool :=
  match s with
  | EmptyString => true
  | String a s' => is_digit a && all_digits s'
  end.

(** The classes of the exceptions reading a body can end in. *)
Definition read_error (e : exn) : Prop :=
  exn_cls e = KeyError \/ exn_cls e = TypeError
  \/ exn_cls e = ValueError \/ exn_cls e = OverflowError.

(** ** Concrete transports *)

Definition deps_of (outcome : result response) (key : option string) : Deps :=
  {| client := fun _ => outcome; weather_api_key := key |}.

Definition deps_unreachable : Deps :=
  deps_of (Raise (Exn RequestError "connection refused")) None.

Definition weather_body (t c : pyval) : pyval :=
  PDict {[ "data" :=
    PDict {[ "values" :=
      PDict {[ "temperatureApparent" := t; "weatherCode" := c ]} ]} ]}.

Definition deps_live (t c : pyval) : Deps :=
  deps_of (Ok (Response 200 (Ok (weather_body t c)))) (Some "secret").

Definition deps_status (status : Z) : Deps :=
  deps_of (Ok (Response status (Ok (PDict ∅)))) (Some "secret").

Definition deps_stub : Deps :=
  deps_of (Ok (Response 200 (Ok (PDict ∅)))) None.

(** A location answer with [city] present, the rest missing. *)
Definition body_city_only : gmap string pyval :=
  {[ "city" := PStr "Lviv" ]}.

(** A location answer with a null region and a latitude of 1000.0. *)
Definition body_null_region : gmap string pyval :=
  {[ "city" := PStr "Lviv";
     "region" := PNone;
     "country_name" := PStr "Ukraine";
     "latitude" := PFloat (float_of_int 1000);
     "longitude" := PFloat (float_of_int 24) ]}.

Definition deps_location (d : gmap string pyval) : Deps :=
  deps_of (Ok (Response 200 (Ok (PDict d)))) None.

(** The natural number a decimal numeral denotes. *)
Definition numeral_value (s : string) : option Z :=
  match NilZero.uint_of_string s with
  | Some u => Some (Z.of_N (N.of_uint u))
  | None => None
  end.

(** A stdout that takes every text. *)
Definition stdout_utf8 : Stdout := fun _ => None.

(** A stdout that cannot encode the answers that carry an [org] field. *)
Definition stdout_ascii : Stdout :=
  fun v =>
    match v with
    | PDict d => match d !! "org" with Some _ => Some CannotEncode | None => None end
    | _ => None
    end.

(** The answer of [body_city_only] with the provider's organisation. *)
Definition body_city_org : gmap string pyval :=
  {[ "city" := PStr "Lviv"; "org" := PStr "Zürich Telecom" ]}.

(** ** The bundle [main] builds *)

(** [os.getenv('WEATHER_API_KEY')] over the process environment, put next to
    the client in [Deps(client=client, weather_api_key=weather_api_key)]. *)
Definition main_deps (environ : gmap string string)
    (c : request -> result response) : Deps :=
  {| client := c; weather_api_key := environ !! "WEATHER_API_KEY" |}.

(** ** Further predicates and transports *)

(** The fields of the provider's answer the location tool reads. *)
Definition location_fields : list string :=
  ["city"; "region"; "country_name"; "latitude"; "longitude"].

(** The class of the exception the ['f'] format ends in for a value that is
    not a number. *)
Definition not_a_number (t : pyval) : option exn_class :=
  match t with
  | PStr _ => Some ValueError
  | PNone | PList _ | PDict _ => Some TypeError
  | PBool _ | PInt _ | PFloat _ => None
  end.

(** Lists and dicts cannot be dict keys. *)
Definition unhashable (c : pyval) : bool :=
  match c with
  | PList _ | PDict _ => true
  | _ => false
  end.

(** A hashable value that is no number: a str or None. *)
Definition hashable_non_number (c : pyval) : bool :=
  match c with
  | PStr _ | PNone => true
  | _ => false
  end.

Definition weather_keys : gset string := {[ "temperature"; "description" ]}.

Definition deps_cancelled : Deps :=
  deps_of (Raise (Exn CancelledError "")) None.

Definition deps_timeout : Deps :=
  deps_of (Raise (Exn RequestError "timed out")) (Some "secret").

(** The answer of [body_city_only] with the caller's address next to it. *)
Definition body_city_ip : gmap string pyval :=
  {[ "city" := PStr "Lviv"; "ip" := PStr "203.0.113.7" ]}.

(** A weather answer whose temperature is null and whose code is missing. *)
Definition body_null_temperature : pyval :=
  PDict {[ "data" :=
    PDict {[ "values" := PDict {[ "temperatureApparent" := PNone ]} ]} ]}.

Definition deps_weather (body : pyval) : Deps :=
  deps_of (Ok (Response 200 (Ok body))) (Some "secret").

(** * Properties *)

(** Unfolding a tool down to the transport's answer. *)
Ltac run_location :=
  unfold get_user_location_by_ip, client_get, raise_for_status, py_print,
    location_request in *;
  simpl.

Ltac run_weather :=
  unfold get_weather, client_get, raise_for_status, weather_request in *;
  simpl.

(** ** The effect monad *)

Section Bind.
Context {A B : Type}.
Implicit Types (m : M A) (k : A -> M B).

Lemma bind_ret_l a k : bind (ret a) k = k a.
Proof. unfold bind, ret. now destruct (k a). Qed.

Lemma bind_Ok m k a :
  snd m = Ok a -> snd (bind m k) = snd (k a).
Proof.
  destruct m as [t r]; simpl; intros ->.
  now destruct (k a).
Qed.

Lemma bind_Raise m k e :
  snd m = Raise e -> snd (bind m k) = Raise e.
Proof. destruct m as [t r]; simpl; now intros ->. Qed.

Lemma bind_Ok_inv m k b :
  snd (bind m k) = Ok b -> exists a, snd m = Ok a /\ snd (k a) = Ok b.
Proof.
  destruct m as [t [a|e]]; simpl; [|discriminate].
  destruct (k a) as [t' r] eqn:E; simpl; intros ->.
  exists a. now rewrite E.
Qed.

End Bind.

(** ** The stub reading *)

Lemma get_weather_stub deps lat lng :
  weather_api_key deps = None ->
  get_weather deps lat lng = ([], Ok stub_weather).
Proof. unfold get_weather. now intros ->. Qed.

(** C2: without a credential [get_weather] returns exactly
    [{temperature: "21 °C", description: "Sunny"}] for every [lat] and
    [lng], and its trace holds no network call (it holds no event at all). *)
Theorem stub_mode_reading deps lat lng :
  weather_api_key deps = None ->
  snd (get_weather deps lat lng)
    = Ok {[ "temperature" := PStr "21 °C"; "description" := PStr "Sunny" ]}
  /\ network_calls (fst (get_weather deps lat lng)) = 0%nat
  /\ fst (get_weather deps lat lng) = [].
Proof.
  intros Hkey. rewrite (get_weather_stub _ _ _ Hkey). auto.
Qed.

Lemma stub_mode_reading_witness :
  snd (get_weather deps_stub (float_lit 504501 4) (float_lit 305234 4))
    = Ok {[ "temperature" := PStr "21 °C"; "description" := PStr "Sunny" ]}
  /\ network_calls
       (fst (get_weather deps_stub (float_lit 504501 4) (float_lit 305234 4))) = 0%nat
  /\ fst (get_weather deps_stub (float_lit 504501 4) (float_lit 305234 4)) = [].
Proof. apply (stub_mode_reading deps_stub). reflexivity. Defined.

(** C10: in stub mode the whole outcome of [get_weather] (result and trace)
    is the same for any two pairs of coordinates, whatever floats they are
    (out of range, infinite, NaN): the coordinates are not used. *)
Theorem stub_mode_ignores_coordinates deps lat1 lng1 lat2 lng2 :
  weather_api_key deps = None ->
  get_weather deps lat1 lng1 = get_weather deps lat2 lng2.
Proof.
  intros Hkey. now rewrite !get_weather_stub.
Qed.

Lemma stub_mode_ignores_coordinates_witness :
  get_weather deps_stub S754_nan (S754_infinity true)
  = get_weather deps_stub (float_of_int 1000) (float_lit 305234 4).
Proof. apply (stub_mode_ignores_coordinates deps_stub). reflexivity. Defined.

(** ** The weather-code translation *)

Lemma code_table_NoDup : NoDup code_table.*1.
Proof. apply (bool_decide_unpack _). vm_compute. exact I. Qed.

Lemma translate_In code label :
  (code, label) ∈ code_table -> translate code = label.
Proof.
  intros Hin. unfold translate, code_lookup.
  now rewrite (elem_of_list_to_map_1 _ _ _ code_table_NoDup Hin).
Qed.

Lemma translate_not_In code :
  code ∉ code_table.*1 -> translate code = "Unknown".
Proof.
  intros Hnin. unfold translate, code_lookup.
  now rewrite (not_elem_of_list_to_map_1 _ _ Hnin).
Qed.

Lemma translate_cases code :
  translate code = "Unknown" \/ (code, translate code) ∈ code_table.
Proof.
  unfold translate, code_lookup.
  destruct (list_to_map code_table !! code) as [label|] eqn:E; [right|now left].
  now apply elem_of_list_to_map_2.
Qed.

(** C3: the translation is a function defined at every integer; at a key of
    the static table it gives that key's label (each key has one entry), at
    every other integer the literal "Unknown"; the lookup the tool performs
    at an int code is that function, with an empty trace and no exception. *)
Theorem translate_table_or_Unknown (code : Z) :
  (forall label, (code, label) ∈ code_table -> translate code = label)
  /\ (code ∉ code_table.*1 -> translate code = "Unknown")
  /\ (translate code = "Unknown" \/ (code, translate code) ∈ code_table)
  /\ code_lookup_get (PInt code) = ([], Ok (translate code))
  /\ NoDup code_table.*1.
Proof.
  split; [intros label; apply translate_In|].
  split; [apply translate_not_In|].
  split; [apply translate_cases|].
  split; [reflexivity | apply code_table_NoDup].
Qed.

Lemma translate_table_or_Unknown_witness :
  translate 1000 = "Clear, Sunny"
  /\ translate 4201 = "Heavy Rain"
  /\ translate 8000 = "Thunderstorm"
  /\ translate 9999 = "Unknown"
  /\ translate (-1) = "Unknown".
Proof.
  split; [|split; [|split; [|split]]].
  - apply (proj1 (translate_table_or_Unknown 1000)).
    apply (bool_decide_unpack _). now vm_compute.
  - apply (proj1 (translate_table_or_Unknown 4201)).
    apply (bool_decide_unpack _). now vm_compute.
  - apply (proj1 (translate_table_or_Unknown 8000)).
    apply (bool_decide_unpack _). now vm_compute.
  - apply (proj1 (proj2 (translate_table_or_Unknown 9999))).
    apply (bool_decide_unpack _). now vm_compute.
  - apply (proj1 (proj2 (translate_table_or_Unknown (-1)))).
    apply (bool_decide_unpack _). now vm_compute.
Defined.

(** ** The location resolver *)

Lemma stdout_exn_Exception err : isinstance_Exception (stdout_exn err) = true.
Proof. now destruct err. Qed.

Lemma location_failure_absorbed stdout deps e :
  lookup_failure stdout deps e ->
  isinstance_Exception e = true ->
  snd (get_user_location_by_ip stdout deps) = Ok fallback_location
  /\ last (fst (get_user_location_by_ip stdout deps))
       = Some (EvLogWarning location_warning e)
  /\ network_calls (fst (get_user_location_by_ip stdout deps)) = 1%nat.
Proof.
  intros Hfail Hexc.
  destruct Hfail as [e Hget | r Hget Hst | r e Hget Hst Hjson
                    | r body err Hget Hst Hjson Hout
                    | r body Hget Hst Hjson Hout Hobj]; run_location.
  - rewrite Hget; simpl. rewrite Hexc; simpl. auto.
  - rewrite Hget; simpl. rewrite Hst; simpl. auto.
  - rewrite Hget; simpl. rewrite Hst; simpl. rewrite Hjson; simpl.
    rewrite Hexc; simpl. auto.
  - rewrite Hget; simpl. rewrite Hst; simpl. rewrite Hjson; simpl.
    rewrite Hout; simpl. rewrite Hexc; simpl. auto.
  - rewrite Hget; simpl. rewrite Hst; simpl. rewrite Hjson; simpl.
    rewrite Hout; simpl.
    destruct body; simpl; auto. now destruct (Hobj d).
Qed.

Lemma location_success stdout deps d :
  location_response deps d ->
  stdout (PDict d) = None ->
  get_user_location_by_ip stdout deps =
    ([EvGet location_request; EvPrint (PDict d)],
     Ok {[ "city" := default (PStr "Unknown") (d !! "city");
           "region" := default (PStr "Unknown") (d !! "region");
           "country" := default (PStr "Unknown") (d !! "country_name");
           "lat" := default (PFloat (S754_zero false)) (d !! "latitude");
           "lng" := default (PFloat (S754_zero false)) (d !! "longitude") ]}).
Proof.
  intros (r & Hget & Hst & Hjson) Hout. run_location.
  rewrite Hget; simpl. rewrite Hst; simpl. rewrite Hjson; simpl.
  rewrite Hout; simpl.
  unfold default. reflexivity.
Qed.

Lemma float_lit_lat : float_lit 504501 4 = S754_finite false 7100220361275133 (-47).
Proof. reflexivity. Qed.

Lemma float_lit_lng : float_lit 305234 4 = S754_finite false 8591573304130037 (-48).
Proof. reflexivity. Qed.

(** C1: when the location lookup fails (the GET raises an exception, the
    status is not 2xx, reading the body raises an exception, or the body is
    not an object; also when printing the body raises),
    [get_user_location_by_ip] does not raise: it returns exactly the
    fallback [{city: "Київ", region: "Київська область", country: "Україна",
    lat: 50.4501, lng: 30.5234}], after logging the failure, whatever the
    standard output does. Exceptions are instances of [Exception], which is
    what the [except] clause names. *)
Theorem location_failure_returns_fallback stdout deps e :
  lookup_failure stdout deps e ->
  isinstance_Exception e = true ->
  snd (get_user_location_by_ip stdout deps)
    = Ok {[ "city" := PStr "Київ";
            "region" := PStr "Київська область";
            "country" := PStr "Україна";
            "lat" := PFloat (float_lit 504501 4);
            "lng" := PFloat (float_lit 305234 4) ]}
  /\ last (fst (get_user_location_by_ip stdout deps))
       = Some (EvLogWarning "Failed to get location by IP: " e).
Proof.
  intros Hfail Hexc.
  destruct (location_failure_absorbed stdout deps e Hfail Hexc) as (Hres & Hlog & _).
  split; assumption.
Qed.

Lemma location_failure_returns_fallback_witness :
  snd (get_user_location_by_ip stdout_utf8 deps_unreachable)
    = Ok {[ "city" := PStr "Київ";
            "region" := PStr "Київська область";
            "country" := PStr "Україна";
            "lat" := PFloat (float_lit 504501 4);
            "lng" := PFloat (float_lit 305234 4) ]}
  /\ last (fst (get_user_location_by_ip stdout_utf8 deps_unreachable))
       = Some (EvLogWarning "Failed to get location by IP: "
                 (Exn RequestError "connection refused")).
Proof.
  apply (location_failure_returns_fallback stdout_utf8 deps_unreachable).
  - apply get_raises. reflexivity.
  - reflexivity.
Defined.

(** C4: on the success path (a success status, a JSON object [d] as body,
    and the print of it returned) the result carries [d]'s [country_name]
    under [country], and each of [city], [region], [country] is the literal
    "Unknown" and each of [lat], [lng] is 0.0 when the response lacks the
    field it is read from; a field the response has is passed on as it
    is. *)
Theorem location_success_mapping stdout deps d :
  location_response deps d ->
  stdout (PDict d) = None ->
  exists loc,
    snd (get_user_location_by_ip stdout deps) = Ok loc
    /\ loc !! "city" = Some (default (PStr "Unknown") (d !! "city"))
    /\ loc !! "region" = Some (default (PStr "Unknown") (d !! "region"))
    /\ loc !! "country" = Some (default (PStr "Unknown") (d !! "country_name"))
    /\ loc !! "lat" = Some (default (PFloat (S754_zero false)) (d !! "latitude"))
    /\ loc !! "lng" = Some (default (PFloat (S754_zero false)) (d !! "longitude"))
    /\ (d !! "city" = None -> loc !! "city" = Some (PStr "Unknown"))
    /\ (d !! "region" = None -> loc !! "region" = Some (PStr "Unknown"))
    /\ (d !! "country_name" = None -> loc !! "country" = Some (PStr "Unknown"))
    /\ (d !! "latitude" = None -> loc !! "lat" = Some (PFloat (S754_zero false)))
    /\ (d !! "longitude" = None -> loc !! "lng" = Some (PFloat (S754_zero false))).
Proof.
  intros Hresp Hout. rewrite (location_success stdout deps d Hresp Hout). simpl.
  eexists. split; [reflexivity|].
  repeat split; try (intros ->; simpl); now simplify_map_eq.
Qed.

Lemma location_success_mapping_witness :
  exists loc,
    snd (get_user_location_by_ip stdout_utf8 (deps_location body_city_only))
      = Ok loc
    /\ loc !! "city" = Some (PStr "Lviv")
    /\ loc !! "country" = Some (PStr "Unknown")
    /\ loc !! "lat" = Some (PFloat (S754_zero false)).
Proof.
  destruct (location_success_mapping stdout_utf8
              (deps_location body_city_only) body_city_only)
    as (loc & Hrun & Hcity & _ & _ & _ & _ & _ & _ & Hcountry & Hlat & _).
  - exists (Response 200 (Ok (PDict body_city_only))).
    split; [reflexivity | split; reflexivity].
  - reflexivity.
  - exists loc. split; [exact Hrun|]. split; [exact Hcity|].
    split; [apply Hcountry | apply Hlat]; reflexivity.
Defined.

(** ** The weather resolver, live mode *)

Lemma bind_silent {A B} (m : M A) (k : A -> M B) :
  fst m = [] -> (forall a, fst (k a) = []) -> fst (bind m k) = [].
Proof.
  destruct m as [t [a|e]]; simpl; intros ->; [|reflexivity].
  intros Hk. specialize (Hk a). now destruct (k a).
Qed.

Lemma subscript_silent v key : fst (subscript v key) = [].
Proof. destruct v; simpl; try reflexivity. now destruct (d !! key). Qed.

Lemma float_for_format_silent v : fst (float_for_format v) = [].
Proof.
  destruct v; simpl; try reflexivity.
  now destruct (float_of_int n).
Qed.

Lemma format_0f_silent v : fst (format_0f v) = [].
Proof.
  unfold format_0f. apply bind_silent; [apply float_for_format_silent|reflexivity].
Qed.

Lemma code_lookup_get_silent v : fst (code_lookup_get v) = [].
Proof. now destruct v. Qed.

Lemma read_weather_silent body : fst (read_weather body) = [].
Proof.
  unfold read_weather.
  repeat (apply bind_silent;
          [first [apply subscript_silent | apply format_0f_silent
                 | apply code_lookup_get_silent] | intros ?]).
  reflexivity.
Qed.

(** In live mode, once the provider has answered with a success status and
    a parsed body, the outcome is that of reading the body, and the trace
    is the span, the one GET and the span attribute. *)
Lemma get_weather_live deps lat lng body :
  live_body deps lat lng body ->
  snd (get_weather deps lat lng) = snd (read_weather body)
  /\ network_calls (fst (get_weather deps lat lng)) = 1%nat.
Proof.
  intros (key & r & Hkey & Hget & Hst & Hjson). run_weather.
  rewrite Hkey; simpl. rewrite Hget; simpl. rewrite Hst; simpl.
  rewrite Hjson; simpl.
  pose proof (read_weather_silent body) as Hsilent. unfold read_weather in *.
  destruct (bind (subscript body "data") _) as [t res]; simpl in *.
  subst t. split; reflexivity.
Qed.

(** C6: in live mode a status that is not a success makes [get_weather]
    raise [HTTPStatusError] right after the one GET; the body is not read.
    The location resolver given the same kind of answer returns its
    fallback instead. *)
Theorem weather_status_error_propagates deps key lat lng r :
  weather_api_key deps = Some key ->
  client deps (weather_request key lat lng) = Ok r ->
  is_success (status_code r) = false ->
  get_weather deps lat lng
    = ([EvSpan "calling weather API" (weather_params key lat lng);
        EvGet (weather_request key lat lng)],
       Raise (Exn HTTPStatusError ""))
  /\ (forall stdout,
        client deps location_request = Ok r ->
        snd (get_user_location_by_ip stdout deps) = Ok fallback_location).
Proof.
  intros Hkey Hget Hst. split.
  - run_weather. rewrite Hkey; simpl. rewrite Hget; simpl. now rewrite Hst.
  - intros stdout Hloc.
    now apply (location_failure_absorbed stdout deps _
                 (status_not_success stdout deps r Hloc Hst)).
Qed.

Lemma weather_status_error_propagates_witness :
  get_weather (deps_status 503) (float_lit 504501 4) (float_lit 305234 4)
    = ([EvSpan "calling weather API"
          (weather_params "secret" (float_lit 504501 4) (float_lit 305234 4));
        EvGet (weather_request "secret" (float_lit 504501 4) (float_lit 305234 4))],
       Raise (Exn HTTPStatusError ""))
  /\ snd (get_user_location_by_ip stdout_utf8 (deps_status 503))
       = Ok fallback_location.
Proof.
  destruct (weather_status_error_propagates (deps_status 503) "secret"
              (float_lit 504501 4) (float_lit 305234 4)
              (Response 503 (Ok (PDict ∅)))) as [Hw Hl];
    [reflexivity | reflexivity | reflexivity |].
  split; [exact Hw | apply Hl; reflexivity].
Defined.

Lemma subscript_member v k x :
  member v k = Some x -> subscript v k = ret x.
Proof. destruct v; simpl; try discriminate. now intros ->. Qed.

Lemma subscript_no_member v k :
  member v k = None ->
  exists e, subscript v k = raise e
            /\ (exn_cls e = KeyError \/ exn_cls e = TypeError).
Proof.
  destruct v; simpl; try (intros _; eexists; split; [reflexivity|now right]).
  intros ->. eexists; split; [reflexivity|now left].
Qed.

Lemma format_0f_outcome v :
  (exists s, format_0f v = ret s) \/ (exists e, format_0f v = raise e /\ read_error e).
Proof.
  unfold format_0f, read_error.
  destruct v; simpl; eauto 8.
  destruct (float_of_int n); simpl; eauto 8.
Qed.

Lemma read_weather_malformed body :
  weather_shape body = None ->
  exists e, snd (read_weather body) = Raise e /\ read_error e.
Proof.
  unfold weather_shape, body_values, read_weather, read_error.
  destruct (member body "data") as [data'|] eqn:Hdata.
  2:{ intros _. destruct (subscript_no_member _ _ Hdata) as (e & -> & He).
      exists e. simpl. tauto. }
  rewrite (subscript_member _ _ _ Hdata); simpl.
  destruct (member data' "values") as [values|] eqn:Hvalues.
  2:{ intros _. destruct (subscript_no_member _ _ Hvalues) as (e & -> & He).
      exists e. simpl. tauto. }
  rewrite (subscript_member _ _ _ Hvalues); simpl.
  destruct (member values "temperatureApparent") as [t|] eqn:Ht.
  2:{ intros _. destruct (subscript_no_member _ _ Ht) as (e & -> & He).
      exists e. simpl. tauto. }
  rewrite (subscript_member _ _ _ Ht); simpl.
  destruct (member values "weatherCode") as [c|] eqn:Hc; [discriminate|].
  intros _.
  destruct (format_0f_outcome t) as [(s & ->)|(e & -> & He)]; simpl.
  - destruct (subscript_no_member _ _ Hc) as (e & -> & He).
    exists e. simpl. tauto.
  - exists e. now split.
Qed.

(** C7: in live mode, a parsed body that lacks [data], [data.values],
    [temperatureApparent] or [weatherCode] makes [get_weather] raise: the
    error of the failed read (a [KeyError] or [TypeError], or the error of
    formatting the temperature when only [weatherCode] is missing) leaves
    the tool, and it is an instance of [Exception] that nothing in the tool
    catches. *)
Theorem malformed_weather_body_raises deps lat lng body :
  live_body deps lat lng body ->
  weather_shape body = None ->
  exists e,
    snd (get_weather deps lat lng) = Raise e
    /\ read_error e
    /\ isinstance_Exception e = true.
Proof.
  intros Hlive Hshape.
  destruct (get_weather_live deps lat lng body Hlive) as [-> _].
  destruct (read_weather_malformed body Hshape) as (e & Hrun & He).
  exists e. split; [exact Hrun|]. split; [exact He|].
  unfold isinstance_Exception.
  destruct He as [->|[->|[->| ->]]]; reflexivity.
Qed.

Lemma malformed_weather_body_raises_witness :
  exists e,
    snd (get_weather (deps_status 200) (float_lit 504501 4) (float_lit 305234 4))
      = Raise e
    /\ read_error e
    /\ isinstance_Exception e = true.
Proof.
  apply (malformed_weather_body_raises (deps_status 200) _ _ (PDict ∅)).
  - exists "secret", (Response 200 (Ok (PDict ∅))).
    repeat split; reflexivity.
  - reflexivity.
Defined.

(** ** Formatting the temperature *)

Lemma round_half_even_nearest s m e :
  nearest_integer (S754_finite s m e) (round_half_even m e).
Proof.
  unfold nearest_integer, round_half_even.
  destruct (Z.leb_spec 0 e) as [Hle|Hlt].
  - rewrite Z.max_l by lia. rewrite Z.add_0_r. simpl (2 ^ 0).
    replace (Z.pos m * 2 ^ e * 1 - Z.pos m * 2 ^ e) with 0 by lia.
    simpl. lia.
  - rewrite Z.max_r by lia.
    replace (e + - e) with 0 by lia. simpl (2 ^ 0).
    assert (Hd : 0 < 2 ^ (- e)) by (apply Z.pow_pos_nonneg; lia).
    set (d := 2 ^ (- e)) in *.
    pose proof (Z.div_mod (Z.pos m) d ltac:(lia)) as Hdm.
    pose proof (Z.mod_pos_bound (Z.pos m) d Hd) as Hr.
    set (q := Z.pos m / d) in *. set (r := Z.pos m mod d) in *.
    destruct (Z.compare_spec (2 * r) d) as [Heq|Hlow|Hhigh].
    + destruct (Z.even q); nia.
    + nia.
    + nia.
Qed.

(** On a tie the even neighbour is taken. *)
Lemma round_half_even_tie m e :
  e < 0 ->
  2 * (Z.pos m mod 2 ^ (- e)) = 2 ^ (- e) ->
  Z.even (round_half_even m e) = true.
Proof.
  intros He Htie. unfold round_half_even.
  destruct (Z.leb_spec 0 e); [lia|].
  rewrite Htie, Z.compare_refl.
  destruct (Z.even (Z.pos m / 2 ^ (- e))) eqn:Hq; [exact Hq|].
  rewrite Z.even_add, Hq. reflexivity.
Qed.

Lemma string_of_uint_all_digits d :
  all_digits (NilEmpty.string_of_uint d) = true.
Proof. induction d; simpl; auto. Qed.

Lemma digits_all_digits n : all_digits (digits n) = true.
Proof.
  unfold digits, NilZero.string_of_uint.
  destruct (N.to_uint (Z.to_N n)) eqn:E; try reflexivity;
    rewrite <- E; apply string_of_uint_all_digits.
Qed.

Lemma weather_shape_members body t c :
  weather_shape body = Some (t, c) ->
  exists data' values,
    member body "data" = Some data'
    /\ member data' "values" = Some values
    /\ member values "temperatureApparent" = Some t
    /\ member values "weatherCode" = Some c.
Proof.
  unfold weather_shape, body_values.
  destruct (member body "data") as [data'|] eqn:Hdata; [|discriminate].
  destruct (member data' "values") as [values|] eqn:Hvalues; [|discriminate].
  destruct (member values "temperatureApparent") as [t'|] eqn:Ht; [|discriminate].
  destruct (member values "weatherCode") as [c'|] eqn:Hc; [|discriminate].
  intros [= -> ->]. now exists data', values.
Qed.

Lemma read_weather_shape body t c :
  weather_shape body = Some (t, c) ->
  read_weather body =
    (temperature <- format_0f t ;;
     description <- code_lookup_get c ;;
     ret {[ "temperature" := PStr (temperature +:+ "°C");
            "description" := PStr description ]}).
Proof.
  intros Hshape.
  destruct (weather_shape_members body t c Hshape)
    as (data' & values & Hdata & Hvalues & Ht & Hc).
  unfold read_weather.
  rewrite (subscript_member _ _ _ Hdata), bind_ret_l.
  rewrite (subscript_member _ _ _ Hvalues), bind_ret_l.
  rewrite (subscript_member _ _ _ Ht), bind_ret_l.
  destruct (format_0f t) as [tr [s|e]]; [|reflexivity].
  unfold bind at 1 3.
  now rewrite (subscript_member _ _ _ Hc), bind_ret_l.
Qed.

Lemma read_weather_description body t c temperature desc :
  weather_shape body = Some (t, c) ->
  snd (format_0f t) = Ok temperature ->
  snd (code_lookup_get c) = Ok desc ->
  snd (read_weather body)
    = Ok {[ "temperature" := PStr (temperature +:+ "°C");
            "description" := PStr desc ]}.
Proof.
  intros Hshape Hfmt Hdesc.
  rewrite (read_weather_shape body t c Hshape), (bind_Ok _ _ _ Hfmt).
  now rewrite (bind_Ok _ _ _ Hdesc).
Qed.

(** *** Integers as floats *)

Lemma digits2_pos_bounds p :
  2 ^ (Z.pos (digits2_pos p) - 1) <= Z.pos p < 2 ^ Z.pos (digits2_pos p).
Proof.
  induction p as [p IH|p IH|]; simpl digits2_pos.
  - rewrite Pos2Z.inj_succ.
    replace (Z.succ (Z.pos (digits2_pos p)) - 1)
      with (Z.succ (Z.pos (digits2_pos p) - 1)) by lia.
    rewrite !Z.pow_succ_r by lia. lia.
  - rewrite Pos2Z.inj_succ.
    replace (Z.succ (Z.pos (digits2_pos p)) - 1)
      with (Z.succ (Z.pos (digits2_pos p) - 1)) by lia.
    rewrite !Z.pow_succ_r by lia. lia.
  - simpl. lia.
Qed.

Lemma digits2_pos_iter_xO k p :
  digits2_pos (Pos.iter xO p k) = (digits2_pos p + k)%positive.
Proof.
  induction k as [|k IH] using Pos.peano_ind.
  - simpl. lia.
  - rewrite Pos.iter_succ. simpl. rewrite IH. lia.
Qed.

Lemma iter_xO_value k p : Z.pos (Pos.iter xO p k) = Z.pos p * 2 ^ Z.pos k.
Proof.
  induction k as [|k IH] using Pos.peano_ind.
  - simpl. lia.
  - rewrite Pos.iter_succ, Pos2Z.inj_xO, IH, Pos2Z.inj_succ, Z.pow_succ_r by lia.
    lia.
Qed.

(** An integer below 2^53 is a float: rounding it changes nothing. *)
Lemma binary_round_small sx p :
  Z.pos p < 2 ^ 53 ->
  exists m e,
    binary_round prec emax sx p 0 = S754_finite sx m e
    /\ e <= 0 /\ Z.pos m = Z.pos p * 2 ^ (- e).
Proof.
  intros Hp.
  pose proof (digits2_pos_bounds p) as [Hlo Hhi].
  assert (Hd : Z.pos (digits2_pos p) <= 53).
  { destruct (Z.le_gt_cases (Z.pos (digits2_pos p)) 53) as [H|H]; [exact H|].
    exfalso.
    assert (2 ^ 53 <= 2 ^ (Z.pos (digits2_pos p) - 1))
      by (apply Z.pow_le_mono_r; lia).
    lia. }
  unfold binary_round, shl_align, fexp, emin, prec, emax.
  rewrite Z.add_0_r, Z.sub_0_r.
  rewrite Z.max_l by lia.
  destruct (Z.pos (digits2_pos p) - 53) as [|q|q] eqn:Hq; [|lia|].
  - exists p, 0.
    unfold binary_round_aux, shr_fexp, fexp, emin, Zdigits2, shr, shr_record_of_loc.
    rewrite Z.add_0_r, Z.sub_0_r, Z.max_l by lia. rewrite Hq. simpl.
    rewrite Z.add_0_r, Z.max_l by lia. rewrite Hq. simpl.
    split; [reflexivity|]. split; [lia|]. simpl. lia.
  - exists (Pos.iter xO p q), (Z.neg q).
    assert (Hdq : Z.pos (digits2_pos (Pos.iter xO p q)) = 53).
    { rewrite digits2_pos_iter_xO. lia. }
    unfold binary_round_aux, shr_fexp, fexp, emin, Zdigits2, shr, shr_record_of_loc.
    rewrite Hdq.
    replace (Z.max (53 + Z.neg q - 53) (3 - 1024 - 53) - Z.neg q) with 0 by lia.
    simpl round_nearest_even. cbv iota beta. simpl shr_m.
    rewrite Hdq.
    replace (Z.max (53 + Z.neg q - 53) (3 - 1024 - 53) - Z.neg q) with 0 by lia.
    simpl shr_m.
    replace (Z.neg q <=? 1024 - 53) with true by (symmetry; apply Z.leb_le; lia).
    split; [reflexivity|]. split; [lia|].
    rewrite iter_xO_value. reflexivity.
Qed.

Lemma round_half_even_exact m e p :
  e <= 0 -> Z.pos m = Z.pos p * 2 ^ (- e) -> round_half_even m e = Z.pos p.
Proof.
  intros He Hm. unfold round_half_even.
  destruct (Z.leb_spec 0 e) as [H0|Hneg].
  - replace e with 0 in * by lia. simpl in *. lia.
  - assert (Hd : 0 < 2 ^ (- e)) by (apply Z.pow_pos_nonneg; lia).
    rewrite Hm, Z.div_mul, Z.mod_mul by lia.
    now destruct (Z.compare_spec (2 * 0) (2 ^ (- e))); try lia.
Qed.

Lemma round_half_even_nonneg m e : 0 <= round_half_even m e.
Proof.
  unfold round_half_even.
  destruct (Z.leb_spec 0 e) as [H0|Hneg].
  - apply Z.mul_nonneg_nonneg; [lia | apply Z.pow_nonneg; lia].
  - assert (Hd : 0 < 2 ^ (- e)) by (apply Z.pow_pos_nonneg; lia).
    assert (Hq : 0 <= Z.pos m / 2 ^ (- e)) by (apply Z.div_pos; lia).
    destruct (2 * (Z.pos m mod 2 ^ (- e)) ?= 2 ^ (- e));
      [destruct (Z.even _)| |]; lia.
Qed.

(** An int below 2^53 in magnitude is printed as it is. *)
Lemma format_0f_small_int n :
  Z.abs n < 2 ^ 53 ->
  format_0f (PInt n)
    = ret ((if n <? 0 then "-" else "") +:+ digits (Z.abs n)).
Proof.
  intros Hn. unfold format_0f, float_for_format, float_of_int.
  destruct n as [|p|p].
  - reflexivity.
  - change (binary_normalize prec emax (Z.pos p) 0 false)
      with (binary_round prec emax false p 0).
    destruct (binary_round_small false p Hn) as (m & e & -> & He & Hm).
    rewrite bind_ret_l. unfold format_float_0f.
    now rewrite (round_half_even_exact m e p He Hm).
  - change (binary_normalize prec emax (Z.neg p) 0 false)
      with (binary_round prec emax true p 0).
    destruct (binary_round_small true p Hn) as (m & e & -> & He & Hm).
    rewrite bind_ret_l. unfold format_float_0f.
    now rewrite (round_half_even_exact m e p He Hm).
Qed.

(** *** Decimal numerals *)

Lemma N_to_uint_nonnil n : N.to_uint n <> Decimal.Nil.
Proof.
  destruct n as [|p]; [discriminate|]. simpl.
  apply DecimalPos.Unsigned.to_uint_nonnil.
Qed.

(** The digits printed for [n] read back as [n]. *)
Lemma numeral_value_digits n : 0 <= n -> numeral_value (digits n) = Some n.
Proof.
  intros Hn. unfold numeral_value, digits.
  rewrite (NilZero.usu _ (N_to_uint_nonnil _)).
  rewrite DecimalN.Unsigned.of_to. f_equal. lia.
Qed.

(** C5: in live mode, when [data.data.values] holds a number as
    [temperatureApparent] and a [weatherCode] the table can be asked for,
    the temperature is a minus sign for a negative value, then the decimal
    digits of an integer nearest to the magnitude of the value (digits
    only, no decimal point), then the suffix "°C" with no space before it:
    - a finite float [(-1)^s * m * 2^e] gives the digits of an [n] with
      [|n - m * 2^e| <= 1/2];
    - a zero gives "0°C", "-0°C" for the negative zero;
    - an int below 2^53 in magnitude gives its own digits, a bool 1 or 0;
    - 20.6 (the binary64 [5798384520239514 * 2^-48], within half a unit in
      the last place of 20.6) with code 1000 gives exactly
      [{temperature: "21°C", description: "Clear, Sunny"}]. *)
Theorem live_temperature_format deps lat lng body t c desc :
  live_body deps lat lng body ->
  weather_shape body = Some (t, c) ->
  snd (code_lookup_get c) = Ok desc ->
  (forall s m e,
     t = PFloat (S754_finite s m e) ->
     exists n,
       snd (get_weather deps lat lng)
         = Ok {[ "temperature" :=
                   PStr (((if s then "-" else "") +:+ digits n) +:+ "°C");
                 "description" := PStr desc ]}
       /\ 0 <= n
       /\ nearest_integer (S754_finite s m e) n
       /\ numeral_value (digits n) = Some n
       /\ all_digits (digits n) = true)
  /\ (forall s,
        t = PFloat (S754_zero s) ->
        snd (get_weather deps lat lng)
          = Ok {[ "temperature" := PStr (if s then "-0°C" else "0°C");
                  "description" := PStr desc ]})
  /\ (forall n,
        t = PInt n ->
        Z.abs n < 2 ^ 53 ->
        snd (get_weather deps lat lng)
          = Ok {[ "temperature" :=
                    PStr (((if n <? 0 then "-" else "") +:+ digits (Z.abs n))
                          +:+ "°C");
                  "description" := PStr desc ]}
        /\ numeral_value (digits (Z.abs n)) = Some (Z.abs n)
        /\ all_digits (digits (Z.abs n)) = true)
  /\ (forall b,
        t = PBool b ->
        snd (get_weather deps lat lng)
          = Ok {[ "temperature" := PStr (if b then "1°C" else "0°C");
                  "description" := PStr desc ]})
  /\ (t = PFloat (S754_finite false 5798384520239514 (-48)) ->
      c = PInt 1000 ->
      snd (get_weather deps lat lng)
        = Ok {[ "temperature" := PStr "21°C";
                "description" := PStr "Clear, Sunny" ]}
      /\ 2 * Z.abs (10 * 5798384520239514 - 206 * 2 ^ 48) <= 10).
Proof.
  intros Hlive Hshape Hdesc.
  destruct (get_weather_live deps lat lng body Hlive) as [-> _].
  split; [|split; [|split; [|split]]].
  - intros s m e ->. exists (round_half_even m e).
    split; [|split; [|split; [|split]]].
    + now apply (read_weather_description body _ c _ desc Hshape).
    + apply round_half_even_nonneg.
    + apply round_half_even_nearest.
    + apply numeral_value_digits, round_half_even_nonneg.
    + apply digits_all_digits.
  - intros s ->.
    rewrite (read_weather_description body _ c (sign_str s +:+ "0") desc Hshape);
      [now destruct s | reflexivity | exact Hdesc].
  - intros n -> Hn. split; [|split].
    + apply (read_weather_description body _ c _ desc Hshape); [|exact Hdesc].
      now rewrite (format_0f_small_int n Hn).
    + apply numeral_value_digits. lia.
    + apply digits_all_digits.
  - intros b ->.
    rewrite (read_weather_description body _ c (if b then "1" else "0") desc Hshape);
      [now destruct b | now destruct b | exact Hdesc].
  - intros -> ->. split; [|now vm_compute].
    now apply (read_weather_description body _ _ "21" "Clear, Sunny" Hshape).
Qed.

Lemma live_temperature_format_witness :
  snd (get_weather (deps_live (PFloat (float_lit 206 1)) (PInt 1000))
         (float_lit 504501 4) (float_lit 305234 4))
    = Ok {[ "temperature" := PStr "21°C";
            "description" := PStr "Clear, Sunny" ]}
  /\ snd (get_weather (deps_live (PFloat (SFopp (float_lit 206 1))) (PInt 1000))
            (float_lit 504501 4) (float_lit 305234 4))
       = Ok {[ "temperature" := PStr "-21°C";
               "description" := PStr "Clear, Sunny" ]}
  /\ snd (get_weather (deps_live (PInt (-7)) (PInt 1000))
            (float_lit 504501 4) (float_lit 305234 4))
       = Ok {[ "temperature" := PStr "-7°C";
               "description" := PStr "Clear, Sunny" ]}.
Proof.
  split; [|split].
  - destruct (live_temperature_format
                (deps_live (PFloat (float_lit 206 1)) (PInt 1000))
                (float_lit 504501 4) (float_lit 305234 4)
                (weather_body (PFloat (float_lit 206 1)) (PInt 1000))
                (PFloat (float_lit 206 1)) (PInt 1000) "Clear, Sunny")
      as (_ & _ & _ & _ & Hexact).
    + exists "secret",
        (Response 200 (Ok (weather_body (PFloat (float_lit 206 1)) (PInt 1000)))).
      split; [reflexivity | split; [reflexivity | split; reflexivity]].
    + reflexivity.
    + reflexivity.
    + exact (proj1 (Hexact eq_refl eq_refl)).
  - destruct (live_temperature_format
                (deps_live (PFloat (SFopp (float_lit 206 1))) (PInt 1000))
                (float_lit 504501 4) (float_lit 305234 4)
                (weather_body (PFloat (SFopp (float_lit 206 1))) (PInt 1000))
                (PFloat (SFopp (float_lit 206 1))) (PInt 1000) "Clear, Sunny")
      as (Hfinite & _).
    + exists "secret",
        (Response 200
           (Ok (weather_body (PFloat (SFopp (float_lit 206 1))) (PInt 1000)))).
      split; [reflexivity | split; [reflexivity | split; reflexivity]].
    + reflexivity.
    + reflexivity.
    + destruct (Hfinite true 5798384520239514%positive (-48) eq_refl)
        as (n & Hrun & Hn & Hnear & _).
      assert (Hn21 : n = 21).
      { unfold nearest_integer in Hnear.
        change (Z.max 0 (- -48)) with 48 in Hnear.
        change (-48 + 48) with 0 in Hnear.
        change (2 ^ 0) with 1 in Hnear.
        change (2 ^ 48) with 281474976710656 in Hnear. lia. }
      rewrite Hn21 in Hrun. exact Hrun.
  - destruct (live_temperature_format
                (deps_live (PInt (-7)) (PInt 1000))
                (float_lit 504501 4) (float_lit 305234 4)
                (weather_body (PInt (-7)) (PInt 1000))
                (PInt (-7)) (PInt 1000) "Clear, Sunny")
      as (_ & _ & Hint & _).
    + exists "secret",
        (Response 200 (Ok (weather_body (PInt (-7)) (PInt 1000)))).
      split; [reflexivity | split; [reflexivity | split; reflexivity]].
    + reflexivity.
    + reflexivity.
    + exact (proj1 (Hint (-7) eq_refl eq_refl)).
Defined.

(** ** The description is never empty *)

Lemma code_table_labels : Forall (fun p => p.2 <> "") code_table.
Proof. repeat constructor; discriminate. Qed.

Lemma translate_nonempty code : translate code <> "".
Proof.
  destruct (translate_cases code) as [-> | Hin]; [discriminate|].
  exact (proj1 (Forall_forall _ _) code_table_labels _ Hin).
Qed.

Lemma code_lookup_get_nonempty c desc :
  snd (code_lookup_get c) = Ok desc -> desc <> "".
Proof.
  destruct c; simpl; try discriminate; intros [= <-];
    try apply translate_nonempty; try discriminate.
  destruct (float_as_int f); [apply translate_nonempty | discriminate].
Qed.


Lemma get_weather_Ok_inv deps lat lng d :
  snd (get_weather deps lat lng) = Ok d ->
  (weather_api_key deps = None /\ d = stub_weather)
  \/ (exists body, live_body deps lat lng body /\ snd (read_weather body) = Ok d).
Proof.
  destruct (weather_api_key deps) as [key|] eqn:Hkey.
  2:{ rewrite (get_weather_stub _ _ _ Hkey). simpl. intros [= <-]. now left. }
  destruct (client deps (weather_request key lat lng)) as [r|e] eqn:Hget.
  2:{ run_weather. rewrite Hkey; simpl. rewrite Hget; simpl. discriminate. }
  destruct (is_success (status_code r)) eqn:Hst.
  2:{ run_weather. rewrite Hkey; simpl. rewrite Hget; simpl. rewrite Hst; simpl.
      discriminate. }
  destruct (json r) as [body|e] eqn:Hjson.
  2:{ run_weather. rewrite Hkey; simpl. rewrite Hget; simpl. rewrite Hst; simpl.
      rewrite Hjson; simpl. discriminate. }
  assert (Hlive : live_body deps lat lng body) by (exists key, r; auto).
  destruct (get_weather_live deps lat lng body Hlive) as [-> _].
  intros Hread. right. now exists body.
Qed.

Lemma read_weather_Ok_inv body d :
  snd (read_weather body) = Ok d ->
  exists t c temperature desc,
    weather_shape body = Some (t, c)
    /\ snd (format_0f t) = Ok temperature
    /\ snd (code_lookup_get c) = Ok desc
    /\ d = {[ "temperature" := PStr (temperature +:+ "°C");
              "description" := PStr desc ]}.
Proof.
  destruct (weather_shape body) as [[t c]|] eqn:Hshape.
  2:{ destruct (read_weather_malformed body Hshape) as (e & -> & _). discriminate. }
  rewrite (read_weather_shape body t c Hshape).
  intros Hrun.
  apply bind_Ok_inv in Hrun as (temperature & Htemp & Hrun).
  apply bind_Ok_inv in Hrun as (desc & Hdesc & Hrun).
  simpl in Hrun. injection Hrun as <-.
  now exists t, c, temperature, desc.
Qed.

(** C9: every result [get_weather] returns, in stub mode or in live mode
    with whatever [weatherCode], has a string that is not empty as
    [description]; and in live mode an integer code that is not a key of
    the table, next to a temperature that formats, does not make the call
    fail: it returns with the description "Unknown". *)
Theorem weather_description_nonempty deps lat lng :
  (forall d,
     snd (get_weather deps lat lng) = Ok d ->
     exists s, d !! "description" = Some (PStr s) /\ s <> "")
  /\ (forall body t c temperature,
        live_body deps lat lng body ->
        weather_shape body = Some (t, PInt c) ->
        snd (format_0f t) = Ok temperature ->
        c ∉ code_table.*1 ->
        snd (get_weather deps lat lng)
          = Ok {[ "temperature" := PStr (temperature +:+ "°C");
                  "description" := PStr "Unknown" ]}).
Proof.
  split.
  - intros d Hrun.
    destruct (get_weather_Ok_inv deps lat lng d Hrun)
      as [[_ ->] | (body & _ & Hread)].
    + exists "Sunny". split; [reflexivity | discriminate].
    + destruct (read_weather_Ok_inv body d Hread)
        as (t & c & temperature & desc & _ & _ & Hdesc & ->).
      exists desc. split; [reflexivity|].
      now apply (code_lookup_get_nonempty c).
  - intros body t c temperature Hlive Hshape Htemp Hnin.
    destruct (get_weather_live deps lat lng body Hlive) as [-> _].
    rewrite (read_weather_shape body t (PInt c) Hshape).
    rewrite (bind_Ok _ _ _ Htemp). simpl.
    now rewrite (translate_not_In c Hnin).
Qed.

Lemma weather_description_nonempty_witness :
  snd (get_weather (deps_live (PFloat (float_lit 206 1)) (PInt 9999))
         (float_lit 504501 4) (float_lit 305234 4))
    = Ok {[ "temperature" := PStr "21°C"; "description" := PStr "Unknown" ]}
  /\ exists s,
       ({[ "temperature" := PStr "21°C"; "description" := PStr "Unknown" ]}
          : gmap string pyval) !! "description" = Some (PStr s)
       /\ s <> "".
Proof.
  destruct (weather_description_nonempty
              (deps_live (PFloat (float_lit 206 1)) (PInt 9999))
              (float_lit 504501 4) (float_lit 305234 4)) as [Hne Hunk].
  assert (Hrun :
    snd (get_weather (deps_live (PFloat (float_lit 206 1)) (PInt 9999))
           (float_lit 504501 4) (float_lit 305234 4))
      = Ok {[ "temperature" := PStr "21°C"; "description" := PStr "Unknown" ]}).
  { apply (Hunk (weather_body (PFloat (float_lit 206 1)) (PInt 9999))
             (PFloat (float_lit 206 1)) 9999 "21").
    - exists "secret",
        (Response 200 (Ok (weather_body (PFloat (float_lit 206 1)) (PInt 9999)))).
      repeat split; reflexivity.
    - reflexivity.
    - reflexivity.
    - apply (bool_decide_unpack _). now vm_compute. }
  split; [exact Hrun | exact (Hne _ Hrun)].
Defined.

(** ** The Location invariant *)

Lemma fallback_location_invariant :
  location_invariant fallback_location = true
  /\ dom fallback_location = location_keys.
Proof.
  split; [reflexivity|].
  unfold fallback_location, location_keys.
  rewrite !dom_insert_L, dom_singleton_L. set_solver.
Qed.

Lemma absent_or_default P d k dflt :
  absent_or P d k = true -> P dflt = true -> P (default dflt (d !! k)) = true.
Proof. unfold absent_or. now destruct (d !! k). Qed.

Lemma location_success_invariant d :
  supplied_fields_ok d = true ->
  location_invariant
    {[ "city" := default (PStr "Unknown") (d !! "city");
       "region" := default (PStr "Unknown") (d !! "region");
       "country" := default (PStr "Unknown") (d !! "country_name");
       "lat" := default (PFloat (S754_zero false)) (d !! "latitude");
       "lng" := default (PFloat (S754_zero false)) (d !! "longitude") ]} = true.
Proof.
  unfold supplied_fields_ok, location_invariant, field_is.
  intros Hok.
  apply andb_prop in Hok as [Hok Hlng]. apply andb_prop in Hok as [Hok Hlat].
  apply andb_prop in Hok as [Hok Hcountry]. apply andb_prop in Hok as [Hcity Hregion].
  simplify_map_eq.
  rewrite (absent_or_default _ _ _ (PStr "Unknown") Hcity eq_refl).
  rewrite (absent_or_default _ _ _ (PStr "Unknown") Hregion eq_refl).
  rewrite (absent_or_default _ _ _ (PStr "Unknown") Hcountry eq_refl).
  rewrite (absent_or_default _ _ _ (PFloat (S754_zero false)) Hlat eq_refl).
  rewrite (absent_or_default _ _ _ (PFloat (S754_zero false)) Hlng eq_refl).
  reflexivity.
Qed.

(** C8, as stated, fails: a provider answer with a null [region] and a
    latitude of 1000.0 is passed on as it is, so the returned Location has
    a null field and a latitude above 90. *)
Lemma location_invariant_violated :
  snd (get_user_location_by_ip stdout_utf8 (deps_location body_null_region))
    = Ok {[ "city" := PStr "Lviv";
            "region" := PNone;
            "country" := PStr "Ukraine";
            "lat" := PFloat (float_of_int 1000);
            "lng" := PFloat (float_of_int 24) ]}
  /\ location_invariant
       {[ "city" := PStr "Lviv";
          "region" := PNone;
          "country" := PStr "Ukraine";
          "lat" := PFloat (float_of_int 1000);
          "lng" := PFloat (float_of_int 24) ]} = false
  /\ ~ (forall stdout deps loc,
          snd (get_user_location_by_ip stdout deps) = Ok loc ->
          location_invariant loc = true).
Proof.
  assert (Hrun :
    snd (get_user_location_by_ip stdout_utf8 (deps_location body_null_region))
      = Ok {[ "city" := PStr "Lviv";
              "region" := PNone;
              "country" := PStr "Ukraine";
              "lat" := PFloat (float_of_int 1000);
              "lng" := PFloat (float_of_int 24) ]}) by reflexivity.
  split; [exact Hrun|]. split; [reflexivity|].
  intros Hclaim. specialize (Hclaim _ _ _ Hrun). discriminate Hclaim.
Qed.

(** C8, amended: for every provider response and every failure that is an
    exception, and whatever the standard output does,
    [get_user_location_by_ip] returns a Location with exactly the five keys
    [city], [region], [country], [lat], [lng]; the fallback and the defaults
    for missing fields are not null and within range, so that the invariant
    holds whenever the fields the provider supplies are themselves not
    null, with a latitude in [[-90, 90]] and a longitude in
    [[-180, 180]]. *)
Theorem location_always_populated stdout deps :
  only_Exceptions deps = true ->
  exists loc,
    snd (get_user_location_by_ip stdout deps) = Ok loc
    /\ dom loc = location_keys
    /\ ((forall d, location_response deps d -> supplied_fields_ok d = true) ->
        location_invariant loc = true).
Proof.
  unfold only_Exceptions. intros Honly.
  assert (Hfallback : forall e,
    lookup_failure stdout deps e -> isinstance_Exception e = true ->
    exists loc,
      snd (get_user_location_by_ip stdout deps) = Ok loc
      /\ dom loc = location_keys
      /\ ((forall d, location_response deps d -> supplied_fields_ok d = true) ->
          location_invariant loc = true)).
  { intros e Hfail Hexc. exists fallback_location.
    destruct (location_failure_absorbed stdout deps e Hfail Hexc) as (-> & _).
    destruct fallback_location_invariant as [Hinv Hdom]. auto. }
  destruct (client deps location_request) as [r|e] eqn:Hget.
  2:{ apply (Hfallback e); [now apply get_raises | exact Honly]. }
  destruct (is_success (status_code r)) eqn:Hst.
  2:{ apply (Hfallback (Exn HTTPStatusError ""));
        [now apply (status_not_success stdout deps r) | reflexivity]. }
  destruct (json r) as [body|e] eqn:Hjson.
  2:{ apply (Hfallback e); [now apply (json_raises stdout deps r) | exact Honly]. }
  destruct (stdout body) as [err|] eqn:Hout.
  { apply (Hfallback (stdout_exn err));
      [now apply (print_raises stdout deps r body) | apply stdout_exn_Exception]. }
  destruct body as [| | | | | |d];
    try (apply (Hfallback (Exn AttributeError "get"));
         [now apply (body_not_object stdout deps r _ Hget Hst Hjson Hout)
         | reflexivity]).
  assert (Hresp : location_response deps d) by (exists r; auto).
  rewrite (location_success stdout deps d Hresp Hout). simpl.
  eexists. split; [reflexivity|]. split.
  - rewrite !dom_insert_L, dom_singleton_L. unfold location_keys. set_solver.
  - intros Hok. apply location_success_invariant. now apply Hok.
Qed.

Lemma location_always_populated_witness :
  exists loc,
    snd (get_user_location_by_ip stdout_utf8 (deps_location body_city_only))
      = Ok loc
    /\ dom loc = location_keys
    /\ location_invariant loc = true.
Proof.
  destruct (location_always_populated stdout_utf8 (deps_location body_city_only))
    as (loc & Hrun & Hdom & Hinv); [reflexivity|].
  exists loc. split; [exact Hrun|]. split; [exact Hdom|].
  apply Hinv. intros d (r & Hget & _ & Hjson).
  injection Hget as <-. injection Hjson as <-. reflexivity.
Defined.

(** * Further properties of the two tools *)

(** ** The location resolver: its request, what it lets through *)

(** The whole outcome of the location tool, by the transport's answer and
    what the print of the body does. *)
Lemma location_outcome stdout deps :
  get_user_location_by_ip stdout deps =
    match client deps location_request with
    | Raise e =>
        if isinstance_Exception e
        then ([EvGet location_request; EvLogWarning location_warning e],
              Ok fallback_location)
        else ([EvGet location_request], Raise e)
    | Ok r =>
        if is_success (status_code r)
        then match json r with
             | Raise e =>
                 if isinstance_Exception e
                 then ([EvGet location_request; EvLogWarning location_warning e],
                       Ok fallback_location)
                 else ([EvGet location_request], Raise e)
             | Ok body =>
                 match stdout body with
                 | Some err =>
                     ([EvGet location_request; EvPrint body;
                       EvLogWarning location_warning (stdout_exn err)],
                      Ok fallback_location)
                 | None =>
                     match body with
                     | PDict d =>
                         ([EvGet location_request; EvPrint (PDict d)],
                          Ok {[ "city" := default (PStr "Unknown") (d !! "city");
                                "region" := default (PStr "Unknown") (d !! "region");
                                "country" :=
                                  default (PStr "Unknown") (d !! "country_name");
                                "lat" :=
                                  default (PFloat (S754_zero false)) (d !! "latitude");
                                "lng" :=
                                  default (PFloat (S754_zero false))
                                    (d !! "longitude") ]})
                     | _ =>
                         ([EvGet location_request; EvPrint body;
                           EvLogWarning location_warning (Exn AttributeError "get")],
                          Ok fallback_location)
                     end
                 end
             end
        else ([EvGet location_request;
               EvLogWarning location_warning (Exn HTTPStatusError "")],
              Ok fallback_location)
    end.
Proof.
  run_location.
  destruct (client deps _) as [r|e]; simpl.
  2:{ now destruct (isinstance_Exception e). }
  destruct (is_success (status_code r)); simpl; [|reflexivity].
  destruct (json r) as [body|e]; simpl.
  2:{ now destruct (isinstance_Exception e). }
  destruct (stdout body) as [err|]; simpl.
  { now destruct err. }
  destruct body; reflexivity.
Qed.

(** X1: whatever the transport and the standard output do, the location
    tool issues exactly one request, first of all, and it is a GET of
    [https://ipapi.co/json/] with no query parameter. *)
Theorem location_one_request stdout deps :
  exists rest,
    fst (get_user_location_by_ip stdout deps)
      = EvGet (Request "https://ipapi.co/json/" []) :: rest
    /\ network_calls (fst (get_user_location_by_ip stdout deps)) = 1%nat.
Proof.
  rewrite (location_outcome stdout deps).
  destruct (client deps location_request) as [r|e].
  2:{ destruct (isinstance_Exception e); eexists; split; reflexivity. }
  destruct (is_success (status_code r)); [|eexists; split; reflexivity].
  destruct (json r) as [body|e].
  2:{ destruct (isinstance_Exception e); eexists; split; reflexivity. }
  destruct (stdout body); [eexists; split; reflexivity|].
  destruct body; eexists; split; reflexivity.
Qed.

(** X2: the location tool raises exactly when the GET or [r.json()] raises
    something that is not an [Exception] (a cancellation, a keyboard
    interrupt); that exception then leaves the tool right after the GET,
    with nothing printed and no warning logged. *)
Theorem location_raises_iff stdout deps :
  ((exists e, snd (get_user_location_by_ip stdout deps) = Raise e)
   <-> only_Exceptions deps = false)
  /\ (forall e,
        snd (get_user_location_by_ip stdout deps) = Raise e ->
        isinstance_Exception e = false
        /\ fst (get_user_location_by_ip stdout deps) = [EvGet location_request]
        /\ (client deps location_request = Raise e
            \/ exists r, client deps location_request = Ok r /\ json r = Raise e)).
Proof.
  rewrite (location_outcome stdout deps). unfold only_Exceptions.
  destruct (client deps location_request) as [r|e0].
  2:{ destruct (isinstance_Exception e0) eqn:Hexc; simpl; split.
      - split; [intros [e He]; discriminate | discriminate].
      - intros e He; discriminate.
      - split; [reflexivity | intros _; now exists e0].
      - intros e [= <-]. auto. }
  destruct (is_success (status_code r)); simpl.
  2:{ split; [split; [intros [e He]; discriminate | discriminate]|].
      intros e He; discriminate. }
  destruct (json r) as [body|e0] eqn:Hjson.
  2:{ destruct (isinstance_Exception e0) eqn:Hexc; simpl; split.
      - split; [intros [e He]; discriminate | discriminate].
      - intros e He; discriminate.
      - split; [reflexivity | intros _; now exists e0].
      - intros e [= <-]. split; [exact Hexc|]. split; [reflexivity|].
        right. now exists r. }
  destruct (stdout body); simpl.
  { split; [split; [intros [e He]; discriminate | discriminate]
           | intros e He; discriminate]. }
  destruct body; simpl;
    (split; [split; [intros [e He]; discriminate | discriminate]
            | intros e He; discriminate]).
Qed.

Lemma location_raises_iff_witness :
  snd (get_user_location_by_ip stdout_utf8 deps_cancelled)
    = Raise (Exn CancelledError "")
  /\ fst (get_user_location_by_ip stdout_utf8 deps_cancelled)
       = [EvGet location_request].
Proof.
  destruct (location_raises_iff stdout_utf8 deps_cancelled) as [_ Hraise].
  destruct (Hraise (Exn CancelledError "") eq_refl) as (_ & Htrace & _).
  split; [reflexivity | exact Htrace].
Defined.

(** X3: of a provider's answer that was printed without error, only
    [city], [region], [country_name], [latitude] and [longitude] reach the
    result: two such answers that agree on these five give the same
    Location, whatever else they hold (the whole answer is printed all the
    same). *)
Theorem location_reads_five_fields stdout deps deps' d d' :
  location_response deps d ->
  location_response deps' d' ->
  stdout (PDict d) = None ->
  stdout (PDict d') = None ->
  (forall k, k ∈ location_fields -> d !! k = d' !! k) ->
  snd (get_user_location_by_ip stdout deps)
    = snd (get_user_location_by_ip stdout deps')
  /\ fst (get_user_location_by_ip stdout deps)
       = [EvGet location_request; EvPrint (PDict d)].
Proof.
  intros Hresp Hresp' Hout Hout' Hagree.
  rewrite (location_success stdout deps d Hresp Hout),
    (location_success stdout deps' d' Hresp' Hout').
  simpl. split; [|reflexivity].
  rewrite (Hagree "city"), (Hagree "region"), (Hagree "country_name"),
    (Hagree "latitude"), (Hagree "longitude");
    [reflexivity | | | | |]; unfold location_fields; set_solver.
Qed.

Lemma location_reads_five_fields_witness :
  snd (get_user_location_by_ip stdout_utf8 (deps_location body_city_only))
    = snd (get_user_location_by_ip stdout_utf8 (deps_location body_city_ip))
  /\ fst (get_user_location_by_ip stdout_utf8 (deps_location body_city_only))
       = [EvGet location_request; EvPrint (PDict body_city_only)].
Proof.
  apply (location_reads_five_fields stdout_utf8
           (deps_location body_city_only) (deps_location body_city_ip)
           body_city_only body_city_ip).
  - exists (Response 200 (Ok (PDict body_city_only))).
    split; [reflexivity | split; reflexivity].
  - exists (Response 200 (Ok (PDict body_city_ip))).
    split; [reflexivity | split; reflexivity].
  - reflexivity.
  - reflexivity.
  - intros k Hk. unfold location_fields in Hk.
    repeat (apply elem_of_cons in Hk as [->|Hk]; [reflexivity|]).
    now apply elem_of_nil in Hk.
Defined.

Ltac trace_members H :=
  repeat (apply elem_of_cons in H as [H|H]; [try discriminate H|]);
  try (apply elem_of_nil in H; destruct H).

(** X4: a warning is logged exactly when a failure of the [try] body is
    absorbed (the GET raises, the status is not 2xx, [r.json()] raises, the
    print of the body raises, or the body is not an object), and it carries
    the exception that failed it; a lookup that succeeds and is printed
    logs nothing. *)
Theorem location_warning_iff stdout deps e :
  EvLogWarning location_warning e ∈ fst (get_user_location_by_ip stdout deps)
  <-> lookup_failure stdout deps e /\ isinstance_Exception e = true.
Proof.
  split.
  - rewrite (location_outcome stdout deps).
    destruct (client deps location_request) as [r|e0] eqn:Hget.
    2:{ destruct (isinstance_Exception e0) eqn:Hexc; simpl; intros Hin;
          trace_members Hin.
        injection Hin as ->. split; [now apply get_raises | exact Hexc]. }
    destruct (is_success (status_code r)) eqn:Hst; simpl.
    2:{ intros Hin; trace_members Hin. injection Hin as ->.
        split; [now apply (status_not_success stdout deps r) | reflexivity]. }
    destruct (json r) as [body|e0] eqn:Hjson.
    2:{ destruct (isinstance_Exception e0) eqn:Hexc; simpl; intros Hin;
          trace_members Hin.
        injection Hin as ->.
        split; [now apply (json_raises stdout deps r) | exact Hexc]. }
    destruct (stdout body) as [err|] eqn:Hout.
    { intros Hin; trace_members Hin. injection Hin as ->.
      split; [now apply (print_raises stdout deps r body)
             | apply stdout_exn_Exception]. }
    destruct body; simpl; intros Hin; trace_members Hin;
      injection Hin as ->;
      (split; [now apply (body_not_object stdout deps r _ Hget Hst Hjson Hout)
              | reflexivity]).
  - intros [Hfail Hexc].
    destruct (location_failure_absorbed stdout deps e Hfail Hexc) as (_ & Hlast & _).
    apply last_Some in Hlast as [l' ->]. set_solver.
Qed.

Lemma location_warning_iff_witness :
  EvLogWarning location_warning (Exn RequestError "connection refused")
    ∈ fst (get_user_location_by_ip stdout_utf8 deps_unreachable).
Proof.
  apply (proj2 (location_warning_iff stdout_utf8 deps_unreachable
                  (Exn RequestError "connection refused"))).
  split; [apply get_raises; reflexivity | reflexivity].
Defined.

(** X18: a provider's answer that cannot be printed is lost: when the
    lookup succeeds with an object as body and [print] raises on it, the
    tool returns the fallback and logs the error of the print, so a field
    the tool does not read can change the Location it returns. *)
Theorem unprintable_answer_gives_fallback stdout deps d err :
  location_response deps d ->
  stdout (PDict d) = Some err ->
  get_user_location_by_ip stdout deps
    = ([EvGet location_request; EvPrint (PDict d);
        EvLogWarning location_warning (stdout_exn err)],
       Ok fallback_location).
Proof.
  intros (r & Hget & Hst & Hjson) Hout.
  rewrite (location_outcome stdout deps), Hget, Hst, Hjson, Hout.
  reflexivity.
Qed.

Lemma unprintable_answer_gives_fallback_witness :
  snd (get_user_location_by_ip stdout_ascii (deps_location body_city_org))
    = Ok fallback_location
  /\ snd (get_user_location_by_ip stdout_ascii (deps_location body_city_only))
       <> Ok fallback_location.
Proof.
  split.
  - rewrite (unprintable_answer_gives_fallback stdout_ascii
               (deps_location body_city_org) body_city_org CannotEncode);
      [reflexivity | | reflexivity].
    exists (Response 200 (Ok (PDict body_city_org))).
    split; [reflexivity | split; reflexivity].
  - intros Heq. apply (f_equal (fun r => match r with
                                         | Ok loc => loc !! "city"
                                         | Raise _ => None
                                         end)) in Heq.
    discriminate Heq.
Defined.

(** ** The weather resolver: its request, what it lets through *)

(** The whole outcome of the weather tool, by the credential and the
    transport's answer. *)
Lemma weather_outcome deps lat lng :
  get_weather deps lat lng =
    match weather_api_key deps with
    | None => ([], Ok stub_weather)
    | Some key =>
        let opened :=
          [EvSpan "calling weather API" (weather_params key lat lng);
           EvGet (weather_request key lat lng)] in
        match client deps (weather_request key lat lng) with
        | Raise e => (opened, Raise e)
        | Ok r =>
            if is_success (status_code r)
            then match json r with
                 | Raise e => (opened, Raise e)
                 | Ok body =>
                     (opened ++ [EvSpanAttr "response" body],
                      snd (read_weather body))
                 end
            else (opened, Raise (Exn HTTPStatusError ""))
        end
    end.
Proof.
  destruct (weather_api_key deps) as [key|] eqn:Hkey.
  2:{ now apply get_weather_stub. }
  run_weather. rewrite Hkey; simpl.
  destruct (client deps _) as [r|e]; simpl; [|reflexivity].
  destruct (is_success (status_code r)); simpl; [|reflexivity].
  destruct (json r) as [body|e]; simpl; [|reflexivity].
  pose proof (read_weather_silent body) as Hsilent. unfold read_weather in *.
  destruct (bind (subscript body "data") _) as [t res]; simpl in *.
  now subst t.
Qed.

(** X5: the weather tool issues no request without a credential and
    exactly one with a credential, whatever the provider then answers; that
    one request follows the opening of the span and is a GET of the realtime
    endpoint with [apikey], [location] (the two coordinates) and
    [units = metric]. *)
Theorem weather_one_request deps lat lng :
  network_calls (fst (get_weather deps lat lng))
    = match weather_api_key deps with None => 0%nat | Some _ => 1%nat end
  /\ (forall key,
        weather_api_key deps = Some key ->
        exists rest,
          fst (get_weather deps lat lng)
            = EvSpan "calling weather API"
                [("apikey", PLit key); ("location", PCoords lat lng);
                 ("units", PLit "metric")]
              :: EvGet (Request "https://api.tomorrow.io/v4/weather/realtime"
                          [("apikey", PLit key); ("location", PCoords lat lng);
                           ("units", PLit "metric")])
              :: rest).
Proof.
  rewrite (weather_outcome deps lat lng).
  destruct (weather_api_key deps) as [key|]; [|split; [reflexivity|discriminate]].
  cbv zeta.
  destruct (client deps (weather_request key lat lng)) as [r|e].
  2:{ split; [reflexivity|]. intros ? [= <-]. now eexists. }
  destruct (is_success (status_code r)).
  2:{ split; [reflexivity|]. intros ? [= <-]. now eexists. }
  destruct (json r) as [body|e];
    (split; [reflexivity|]; intros ? [= <-]; now eexists).
Qed.

(** X6: in live mode an exception of the GET or of [r.json()] leaves the
    weather tool as it is, of whatever class, right after the request: the
    tool catches nothing and logs nothing. *)
Theorem weather_transport_error_propagates deps key lat lng e :
  weather_api_key deps = Some key ->
  client deps (weather_request key lat lng) = Raise e
  \/ (exists r, client deps (weather_request key lat lng) = Ok r
                /\ is_success (status_code r) = true
                /\ json r = Raise e) ->
  get_weather deps lat lng
    = ([EvSpan "calling weather API" (weather_params key lat lng);
        EvGet (weather_request key lat lng)],
       Raise e).
Proof.
  intros Hkey Hfail. rewrite (weather_outcome deps lat lng), Hkey. cbv zeta.
  destruct Hfail as [-> | (r & -> & -> & ->)]; reflexivity.
Qed.

Lemma weather_transport_error_propagates_witness :
  get_weather deps_timeout (float_lit 504501 4) (float_lit 305234 4)
    = ([EvSpan "calling weather API"
          (weather_params "secret" (float_lit 504501 4) (float_lit 305234 4));
        EvGet (weather_request "secret" (float_lit 504501 4) (float_lit 305234 4))],
       Raise (Exn RequestError "timed out")).
Proof.
  apply (weather_transport_error_propagates deps_timeout "secret").
  - reflexivity.
  - left. reflexivity.
Defined.

(** X17: with the bundle [main] builds, the weather tool is in stub mode
    exactly when [WEATHER_API_KEY] is not in the environment; a variable
    that is set, be it to the empty string, is sent as [apikey]. *)
Theorem main_stub_iff_unset environ c lat lng :
  (network_calls (fst (get_weather (main_deps environ c) lat lng)) = 0%nat
   <-> environ !! "WEATHER_API_KEY" = None)
  /\ (forall key,
        environ !! "WEATHER_API_KEY" = Some key ->
        EvGet (weather_request key lat lng)
          ∈ fst (get_weather (main_deps environ c) lat lng)).
Proof.
  rewrite (weather_outcome (main_deps environ c) lat lng). simpl.
  destruct (environ !! "WEATHER_API_KEY") as [key|];
    [|split; [split; reflexivity | discriminate]].
  destruct (c (weather_request key lat lng)) as [r|e].
  2:{ split; [split; discriminate|]. intros ? [= <-]. set_solver. }
  destruct (is_success (status_code r)).
  2:{ split; [split; discriminate|]. intros ? [= <-]. set_solver. }
  destruct (json r) as [body|e];
    (split; [split; discriminate|]; intros ? [= <-]; set_solver).
Qed.

(** ** The weather resolver: values that are not what the provider documents *)

Lemma read_weather_temperature_raises body values t e :
  body_values body = Some values ->
  member values "temperatureApparent" = Some t ->
  snd (format_0f t) = Raise e ->
  snd (read_weather body) = Raise e.
Proof.
  unfold body_values.
  destruct (member body "data") as [data'|] eqn:Hdata; [|discriminate].
  intros Hvalues Ht Hfmt. unfold read_weather.
  rewrite (subscript_member _ _ _ Hdata), bind_ret_l.
  rewrite (subscript_member _ _ _ Hvalues), bind_ret_l.
  rewrite (subscript_member _ _ _ Ht), bind_ret_l.
  now apply bind_Raise.
Qed.

Lemma format_0f_not_a_number t cls :
  not_a_number t = Some cls ->
  exists e, snd (format_0f t) = Raise e /\ exn_cls e = cls.
Proof.
  destruct t; simpl; try discriminate; intros [= <-];
    eexists; split; reflexivity.
Qed.

(** X7: in live mode a [temperatureApparent] that is no number makes the
    tool raise while formatting it, a [ValueError] for a string and a
    [TypeError] for null, a list or an object; this comes before
    [weatherCode] is read, so it is so whatever the code is, present or
    not. *)
Theorem temperature_not_a_number_raises deps lat lng body values t cls :
  live_body deps lat lng body ->
  body_values body = Some values ->
  member values "temperatureApparent" = Some t ->
  not_a_number t = Some cls ->
  exists e, snd (get_weather deps lat lng) = Raise e /\ exn_cls e = cls.
Proof.
  intros Hlive Hvalues Ht Hnan.
  destruct (get_weather_live deps lat lng body Hlive) as [-> _].
  destruct (format_0f_not_a_number t cls Hnan) as (e & Hfmt & Hcls).
  exists e. split; [|exact Hcls].
  now apply (read_weather_temperature_raises body values t).
Qed.

Lemma temperature_not_a_number_raises_witness :
  exists e,
    snd (get_weather (deps_weather body_null_temperature)
           (float_lit 504501 4) (float_lit 305234 4)) = Raise e
    /\ exn_cls e = TypeError.
Proof.
  apply (temperature_not_a_number_raises
           (deps_weather body_null_temperature) _ _ body_null_temperature
           (PDict {[ "temperatureApparent" := PNone ]}) PNone).
  - exists "secret", (Response 200 (Ok body_null_temperature)).
    repeat split; reflexivity.
  - reflexivity.
  - reflexivity.
  - reflexivity.
Defined.

(** X8: in live mode, next to a temperature that formats, a [weatherCode]
    that is a list or an object makes the tool raise a [TypeError]: the
    default "Unknown" covers a missing key of the table, not a value that
    cannot be a key. *)
Theorem unhashable_code_raises deps lat lng body t c temperature :
  live_body deps lat lng body ->
  weather_shape body = Some (t, c) ->
  snd (format_0f t) = Ok temperature ->
  unhashable c = true ->
  exists e, snd (get_weather deps lat lng) = Raise e /\ exn_cls e = TypeError.
Proof.
  intros Hlive Hshape Hfmt Hc.
  destruct (get_weather_live deps lat lng body Hlive) as [-> _].
  rewrite (read_weather_shape body t c Hshape), (bind_Ok _ _ _ Hfmt).
  destruct c; try discriminate; eexists; split; reflexivity.
Qed.

Lemma unhashable_code_raises_witness :
  exists e,
    snd (get_weather (deps_live (PFloat (float_lit 206 1)) (PList []))
           (float_lit 504501 4) (float_lit 305234 4)) = Raise e
    /\ exn_cls e = TypeError.
Proof.
  apply (unhashable_code_raises
           (deps_live (PFloat (float_lit 206 1)) (PList [])) _ _
           (weather_body (PFloat (float_lit 206 1)) (PList []))
           (PFloat (float_lit 206 1)) (PList []) "21").
  - exists "secret",
      (Response 200 (Ok (weather_body (PFloat (float_lit 206 1)) (PList [])))).
    repeat split; reflexivity.
  - reflexivity.
  - reflexivity.
  - reflexivity.
Defined.

Lemma code_table_float_keys :
  Forall (fun p => float_as_int (float_of_int p.1) = Some p.1) code_table.
Proof. repeat constructor. Qed.

(** X9: a [weatherCode] that arrives as a float equal to a key of the
    table (1000.0 for 1000) finds that key's label, as the int does. *)
Theorem float_code_finds_label deps lat lng body t code label temperature :
  live_body deps lat lng body ->
  weather_shape body = Some (t, PFloat (float_of_int code)) ->
  snd (format_0f t) = Ok temperature ->
  (code, label) ∈ code_table ->
  snd (get_weather deps lat lng)
    = Ok {[ "temperature" := PStr (temperature +:+ "°C");
            "description" := PStr label ]}.
Proof.
  intros Hlive Hshape Hfmt Hin.
  destruct (get_weather_live deps lat lng body Hlive) as [-> _].
  apply (read_weather_description body t _ temperature label Hshape Hfmt).
  pose proof (proj1 (Forall_forall _ _) code_table_float_keys _ Hin) as Hkey.
  simpl in Hkey. simpl. rewrite Hkey.
  now rewrite (translate_In code label Hin).
Qed.

Lemma float_code_finds_label_witness :
  snd (get_weather
         (deps_live (PFloat (float_lit 206 1)) (PFloat (float_of_int 4201)))
         (float_lit 504501 4) (float_lit 305234 4))
    = Ok {[ "temperature" := PStr "21°C"; "description" := PStr "Heavy Rain" ]}.
Proof.
  apply (float_code_finds_label
           (deps_live (PFloat (float_lit 206 1)) (PFloat (float_of_int 4201)))
           _ _
           (weather_body (PFloat (float_lit 206 1)) (PFloat (float_of_int 4201)))
           (PFloat (float_lit 206 1)) 4201 "Heavy Rain" "21").
  - exists "secret",
      (Response 200
         (Ok (weather_body (PFloat (float_lit 206 1))
                (PFloat (float_of_int 4201))))).
    repeat split; reflexivity.
  - reflexivity.
  - reflexivity.
  - apply (bool_decide_unpack _). now vm_compute.
Defined.

(** X10: a [weatherCode] that is a string or null matches no key of the
    table, not even the string of a key's digits: the description is
    "Unknown". *)
Theorem non_number_code_is_Unknown deps lat lng body t c temperature :
  live_body deps lat lng body ->
  weather_shape body = Some (t, c) ->
  snd (format_0f t) = Ok temperature ->
  hashable_non_number c = true ->
  snd (get_weather deps lat lng)
    = Ok {[ "temperature" := PStr (temperature +:+ "°C");
            "description" := PStr "Unknown" ]}.
Proof.
  intros Hlive Hshape Hfmt Hc.
  destruct (get_weather_live deps lat lng body Hlive) as [-> _].
  apply (read_weather_description body t c temperature "Unknown" Hshape Hfmt).
  destruct c; try discriminate; reflexivity.
Qed.

Lemma non_number_code_is_Unknown_witness :
  snd (get_weather (deps_live (PFloat (float_lit 206 1)) (PStr "1000"))
         (float_lit 504501 4) (float_lit 305234 4))
    = Ok {[ "temperature" := PStr "21°C"; "description" := PStr "Unknown" ]}.
Proof.
  apply (non_number_code_is_Unknown
           (deps_live (PFloat (float_lit 206 1)) (PStr "1000")) _ _
           (weather_body (PFloat (float_lit 206 1)) (PStr "1000"))
           (PFloat (float_lit 206 1)) (PStr "1000") "21").
  - exists "secret",
      (Response 200
         (Ok (weather_body (PFloat (float_lit 206 1)) (PStr "1000")))).
    repeat split; reflexivity.
  - reflexivity.
  - reflexivity.
  - reflexivity.
Defined.

(** ** The weather reading *)

(** X11: every reading the weather tool returns, stub or live, has exactly
    the keys [temperature] and [description], both strings, and the
    temperature ends in "°C". *)
Theorem weather_reading_shape deps lat lng d :
  snd (get_weather deps lat lng) = Ok d ->
  dom d = weather_keys
  /\ exists t s,
       d !! "temperature" = Some (PStr (t +:+ "°C"))
       /\ d !! "description" = Some (PStr s).
Proof.
  intros Hrun.
  destruct (get_weather_Ok_inv deps lat lng d Hrun)
    as [[_ ->] | (body & _ & Hread)].
  - split; [|exists "21 ", "Sunny"; split; reflexivity].
    unfold stub_weather, weather_keys.
    rewrite dom_insert_L, dom_singleton_L. set_solver.
  - destruct (read_weather_Ok_inv body d Hread)
      as (t & c & temperature & desc & _ & _ & _ & ->).
    split; [|exists temperature, desc; split; reflexivity].
    unfold weather_keys. rewrite dom_insert_L, dom_singleton_L. set_solver.
Qed.

Lemma weather_reading_shape_witness :
  dom ({[ "temperature" := PStr "21°C"; "description" := PStr "Clear, Sunny" ]}
         : gmap string pyval) = weather_keys.
Proof.
  apply (weather_reading_shape
           (deps_live (PFloat (float_lit 206 1)) (PInt 1000))
           (float_lit 504501 4) (float_lit 305234 4)).
  reflexivity.
Defined.

(** X12: a float temperature with a float-or-int code always gives a
    reading, the non-finite ones too: NaN is reported as "nan°C" and the
    infinities as "inf°C" and "-inf°C". *)
Theorem float_temperature_always_formats deps lat lng body f c :
  live_body deps lat lng body ->
  weather_shape body = Some (PFloat f, PInt c) ->
  snd (get_weather deps lat lng)
    = Ok {[ "temperature" := PStr (format_float_0f f +:+ "°C");
            "description" := PStr (translate c) ]}
  /\ (f = S754_nan -> format_float_0f f +:+ "°C" = "nan°C")
  /\ (forall s, f = S754_infinity s ->
                format_float_0f f +:+ "°C" = if s then "-inf°C" else "inf°C").
Proof.
  intros Hlive Hshape.
  destruct (get_weather_live deps lat lng body Hlive) as [-> _].
  split.
  - now apply (read_weather_description body (PFloat f) (PInt c)).
  - split; [now intros -> | intros s ->; now destruct s].
Qed.

Lemma float_temperature_always_formats_witness :
  snd (get_weather (deps_live (PFloat S754_nan) (PInt 1000))
         (float_lit 504501 4) (float_lit 305234 4))
    = Ok {[ "temperature" := PStr "nan°C";
            "description" := PStr "Clear, Sunny" ]}.
Proof.
  apply (float_temperature_always_formats
           (deps_live (PFloat S754_nan) (PInt 1000)) _ _
           (weather_body (PFloat S754_nan) (PInt 1000)) S754_nan 1000).
  - exists "secret",
      (Response 200 (Ok (weather_body (PFloat S754_nan) (PInt 1000)))).
    repeat split; reflexivity.
  - reflexivity.
Defined.

(** X13: a temperature exactly halfway between two integers is reported as
    the even one (2.5 as "2°C", 3.5 as "4°C"). *)
Theorem half_rounds_to_even deps lat lng body s m e c desc :
  live_body deps lat lng body ->
  weather_shape body = Some (PFloat (S754_finite s m e), c) ->
  snd (code_lookup_get c) = Ok desc ->
  e < 0 ->
  2 * (Z.pos m mod 2 ^ (- e)) = 2 ^ (- e) ->
  snd (get_weather deps lat lng)
    = Ok {[ "temperature" :=
              PStr ((sign_str s +:+ digits (round_half_even m e)) +:+ "°C");
            "description" := PStr desc ]}
  /\ Z.even (round_half_even m e) = true
  /\ (round_half_even m e = Z.pos m / 2 ^ (- e)
      \/ round_half_even m e = Z.pos m / 2 ^ (- e) + 1).
Proof.
  intros Hlive Hshape Hdesc He Htie.
  destruct (get_weather_live deps lat lng body Hlive) as [-> _].
  split.
  - now apply (read_weather_description body (PFloat (S754_finite s m e)) c).
  - split; [now apply round_half_even_tie|].
    unfold round_half_even. destruct (Z.leb_spec 0 e); [lia|].
    rewrite Htie, Z.compare_refl.
    destruct (Z.even (Z.pos m / 2 ^ (- e))); auto.
Qed.

Lemma half_rounds_to_even_witness :
  snd (get_weather (deps_live (PFloat (float_lit 25 1)) (PInt 1000))
         (float_lit 504501 4) (float_lit 305234 4))
    = Ok {[ "temperature" := PStr "2°C"; "description" := PStr "Clear, Sunny" ]}
  /\ snd (get_weather (deps_live (PFloat (float_lit 35 1)) (PInt 1000))
            (float_lit 504501 4) (float_lit 305234 4))
       = Ok {[ "temperature" := PStr "4°C"; "description" := PStr "Clear, Sunny" ]}.
Proof.
  split.
  - apply (half_rounds_to_even
             (deps_live (PFloat (float_lit 25 1)) (PInt 1000)) _ _
             (weather_body (PFloat (float_lit 25 1)) (PInt 1000))
             false 5629499534213120 (-51) (PInt 1000) "Clear, Sunny").
    + exists "secret",
        (Response 200 (Ok (weather_body (PFloat (float_lit 25 1)) (PInt 1000)))).
      repeat split; reflexivity.
    + reflexivity.
    + reflexivity.
    + reflexivity.
    + reflexivity.
  - apply (half_rounds_to_even
             (deps_live (PFloat (float_lit 35 1)) (PInt 1000)) _ _
             (weather_body (PFloat (float_lit 35 1)) (PInt 1000))
             false 7881299347898368 (-51) (PInt 1000) "Clear, Sunny").
    + exists "secret",
        (Response 200 (Ok (weather_body (PFloat (float_lit 35 1)) (PInt 1000)))).
      repeat split; reflexivity.
    + reflexivity.
    + reflexivity.
    + reflexivity.
    + reflexivity.
Defined.

Lemma round_half_even_below_half m e :
  e < 0 -> 2 * Z.pos m < 2 ^ (- e) -> round_half_even m e = 0.
Proof.
  intros He Hsmall. unfold round_half_even.
  destruct (Z.leb_spec 0 e); [lia|].
  rewrite Z.div_small, Z.mod_small by lia.
  now destruct (Z.compare_spec (2 * Z.pos m) (2 ^ (- e))); try lia.
Qed.

(** X14: a temperature of magnitude below one half is reported as zero
    with its sign kept: "0°C" from above and "-0°C" from below (as for
    -0.4). *)
Theorem below_half_prints_signed_zero deps lat lng body s m e c desc :
  live_body deps lat lng body ->
  weather_shape body = Some (PFloat (S754_finite s m e), c) ->
  snd (code_lookup_get c) = Ok desc ->
  e < 0 ->
  2 * Z.pos m < 2 ^ (- e) ->
  snd (get_weather deps lat lng)
    = Ok {[ "temperature" := PStr (if s then "-0°C" else "0°C");
            "description" := PStr desc ]}.
Proof.
  intros Hlive Hshape Hdesc He Hsmall.
  destruct (get_weather_live deps lat lng body Hlive) as [-> _].
  rewrite (read_weather_description body (PFloat (S754_finite s m e)) c
             (sign_str s +:+ "0") desc Hshape); [now destruct s | | exact Hdesc].
  simpl. now rewrite (round_half_even_below_half m e He Hsmall).
Qed.

Lemma below_half_prints_signed_zero_witness :
  snd (get_weather
         (deps_live (PFloat (SFopp (float_lit 4 1))) (PInt 5000))
         (float_lit 504501 4) (float_lit 305234 4))
    = Ok {[ "temperature" := PStr "-0°C"; "description" := PStr "Snow" ]}.
Proof.
  apply (below_half_prints_signed_zero
           (deps_live (PFloat (SFopp (float_lit 4 1))) (PInt 5000)) _ _
           (weather_body (PFloat (SFopp (float_lit 4 1))) (PInt 5000))
           true 7205759403792794 (-54) (PInt 5000) "Snow").
  - exists "secret",
      (Response 200
         (Ok (weather_body (PFloat (SFopp (float_lit 4 1))) (PInt 5000)))).
    repeat split; reflexivity.
  - reflexivity.
  - reflexivity.
  - reflexivity.
  - reflexivity.
Defined.

(** ** The table's labels *)

Lemma code_table_labels_known :
  Forall (fun p => p.2 <> "Unknown" /\ p.2 <> "Sunny") code_table.
Proof. repeat constructor; discriminate. Qed.

Lemma code_table_labels_distinct :
  Forall (fun p => Forall (fun q => p.2 = q.2 -> p.1 = q.1) code_table) code_table.
Proof. apply (bool_decide_unpack _). now vm_compute. Qed.

(** X15: over the integers the description "Unknown" marks exactly the
    codes that are not in the table, and no two codes of the table share a
    description: a description other than "Unknown" names one code. *)
Theorem translate_Unknown_iff code :
  (translate code = "Unknown" <-> code ∉ code_table.*1)
  /\ (forall code', translate code <> "Unknown" ->
                    translate code = translate code' -> code = code').
Proof.
  assert (Hknown : forall c, translate c <> "Unknown" ->
                             (c, translate c) ∈ code_table).
  { intros c Hc. now destruct (translate_cases c). }
  split; [split|].
  - intros Hunk Hin. apply list_elem_of_fmap in Hin as ([c label] & -> & Hin).
    simpl in Hunk. rewrite (translate_In c label Hin) in Hunk.
    now destruct (proj1 (Forall_forall _ _) code_table_labels_known _ Hin).
  - apply translate_not_In.
  - intros code' Hcode Heq.
    pose proof (Hknown code Hcode) as Hin.
    assert (Hin' : (code', translate code') ∈ code_table)
      by (apply Hknown; congruence).
    pose proof (proj1 (Forall_forall _ _) code_table_labels_distinct _ Hin) as Hd.
    exact (proj1 (Forall_forall _ _) Hd _ Hin' Heq).
Qed.

(** X16: a live reading is never the stub reading: with a credential
    configured no result has the description "Sunny" (the table's label is
    "Clear, Sunny"). *)
Theorem live_reading_not_stub deps key lat lng d :
  weather_api_key deps = Some key ->
  snd (get_weather deps lat lng) = Ok d ->
  d !! "description" <> Some (PStr "Sunny") /\ d <> stub_weather.
Proof.
  intros Hkey Hrun.
  assert (Hdesc : d !! "description" <> Some (PStr "Sunny")).
  { destruct (get_weather_Ok_inv deps lat lng d Hrun)
      as [[Hnone _] | (body & _ & Hread)]; [congruence|].
    destruct (read_weather_Ok_inv body d Hread)
      as (t & c & temperature & desc & _ & _ & Hc & ->).
    rewrite lookup_insert_ne by discriminate. rewrite lookup_singleton_eq.
    intros [= ->].
    assert (Hsunny : forall n, translate n <> "Sunny").
    { intros n. destruct (translate_cases n) as [-> | Hin]; [discriminate|].
      exact (proj2 (proj1 (Forall_forall _ _) code_table_labels_known _ Hin)). }
    destruct c; simpl in Hc; try discriminate; injection Hc as Hc.
    - now apply (Hsunny (Z.b2z b)).
    - now apply (Hsunny n).
    - destruct (float_as_int f); [now apply (Hsunny z) | discriminate]. }
  split; [exact Hdesc|]. intros ->. now apply Hdesc.
Qed.

Lemma live_reading_not_stub_witness :
  ({[ "temperature" := PStr "21°C"; "description" := PStr "Clear, Sunny" ]}
     : gmap string pyval) <> stub_weather.
Proof.
  apply (live_reading_not_stub
           (deps_live (PFloat (float_lit 206 1)) (PInt 1000)) "secret"
           (float_lit 504501 4) (float_lit 305234 4)).
  - reflexivity.
  - reflexivity.
Defined.
